(** * Travel recommendation widget: search pipeline, loader and renderer

    Shallow embedding of [travel_recommendation.js].  The script keeps one
    global ([travelData]), reads one input field, writes one results
    container, and talks to two external services: [fetch] for the JSON
    dataset and [Date.prototype.toLocaleTimeString] for the clock.  The global
    and the two page elements become a record that is threaded through the
    functions; the two services are Section variables.  Each handler is
    followed from its call to its completion, one handler at a time.

    Strings are [string]s that hold the UTF-8 form of the text.
    [toLowerCase] lowers every cased character (the full lowercase mapping of
    the Unicode character database, the two forms of the lowered capital
    sigma included) and [trim] strips the white space and the line
    terminators of ECMAScript.  [includes] compares bytes, which on
    well-formed text is the comparison of code units.

    The field [innerHTML] of the page holds the markup the script has
    assigned to the results container, read back as it was assigned: what
    the browser makes of that markup is outside the model. *)

From Stdlib Require Import String Ascii List Bool Arith NArith Lia.
From Stdlib Require Import DecimalString.
Import ListNotations.
Open Scope string_scope.

(** ** String methods used by the script *)

Module JsString.

(** *** UTF-8 *)

Definition byte (c : ascii) : N := N_of_ascii c.

Definition isAscii (c : ascii) : bool := (byte c <? 128)%N.

Definition isContinuation (c : ascii) : bool :=
  ((128 <=? byte c) && (byte c <? 192))%N.

Definition startsContinuation (s : string) : bool :=
  match s with
  | String c _ => isContinuation c
  | EmptyString => false
  end.

(** The characters (code points) of a string, each as its UTF-8 sequence.
    A sequence ends before every byte that is not a continuation byte, and
    after every ASCII byte. *)
Fixpoint chars (s : string) : list string :=
  match s with
  | EmptyString => []
  | String c s' =>
      match chars s' with
      | next :: more =>
          if negb (isAscii c) && startsContinuation s'
          then String c next :: more
          else String c "" :: next :: more
      | [] => [String c ""]
      end
  end.

Definition join (cs : list string) : string := fold_right append "" cs.

(** A number no code point has: the value of an ill-formed sequence. *)
Definition noCodePoint : N := 1114112.

Definition payload (c : ascii) : N := (byte c mod 64)%N.

Definition inside (lo n hi : N) : bool := ((lo <=? n) && (n <=? hi))%N.

(** The code point a UTF-8 sequence stands for (shortest form only). *)
Definition codePoint (ch : string) : N :=
  match ch with
  | String a EmptyString => if isAscii a then byte a else noCodePoint
  | String a (String b EmptyString) =>
      let n := ((byte a mod 32) * 64 + payload b)%N in
      if inside 192 (byte a) 223 && isContinuation b && inside 128 n 2047
      then n else noCodePoint
  | String a (String b (String c EmptyString)) =>
      let n := ((byte a mod 16) * 4096 + payload b * 64 + payload c)%N in
      if inside 224 (byte a) 239 && isContinuation b && isContinuation c
         && inside 2048 n 65535
      then n else noCodePoint
  | String a (String b (String c (String d EmptyString))) =>
      let n := ((byte a mod 8) * 262144 + payload b * 4096
                + payload c * 64 + payload d)%N in
      if inside 240 (byte a) 247 && isContinuation b && isContinuation c
         && isContinuation d && inside 65536 n 1114111
      then n else noCodePoint
  | _ => noCodePoint
  end.

Definition inRanges (n : N) (ranges : list (N * N)) : bool :=
  existsb (fun r => inside (fst r) n (snd r)) ranges.

(** *** White space *)

(** The code points [trim] strips: the WhiteSpace and LineTerminator
    productions of ECMAScript (TAB, LF, VT, FF, CR, SPACE, NBSP, the
    Unicode space separators, LS, PS and the byte order mark). *)
Definition whiteSpaceRanges : list (N * N) :=
  [ (9, 13); (32, 32); (160, 160); (5760, 5760); (8192, 8202); (8232, 8233);
    (8239, 8239); (8287, 8287); (12288, 12288); (65279, 65279) ]%N.

Definition isWhiteSpace (ch : string) : bool :=
  inRanges (codePoint ch) whiteSpaceRanges.

Fixpoint trimStartChars (cs : list string) : list string :=
  match cs with
  | [] => []
  | ch :: rest => if isWhiteSpace ch then trimStartChars rest else cs
  end.

Fixpoint trimEndChars (cs : list string) : list string :=
  match cs with
  | [] => []
  | ch :: rest =>
      match trimEndChars rest with
      | [] => if isWhiteSpace ch then [] else [ch]
      | kept => ch :: kept
      end
  end.

Definition trimStart (s : string) : string := join (trimStartChars (chars s)).

Definition trimEnd (s : string) : string := join (trimEndChars (chars s)).

(** [String.prototype.trim]. *)
Definition trim (s : string) : string :=
  join (trimEndChars (trimStartChars (chars s))).

(** A string is blank when it is empty or made of white space only. *)
Definition isBlank (s : string) : bool := forallb isWhiteSpace (chars s).

(** *** Letter case *)

Definition lowerAscii (c : ascii) : ascii :=
  if inside 65 (byte c) 90 then ascii_of_N (byte c + 32) else c.

(** Lowercasing of the letters [A]-[Z] alone. *)
Fixpoint asciiLower (s : string) : string :=
  match s with
  | EmptyString => EmptyString
  | String c s' => String (lowerAscii c) (asciiLower s')
  end.

(** The lowercase mapping of the characters outside ASCII that have one
    (Unicode character database, full mapping, version 14.0). *)
Definition lowerTable : list (N * string) :=
  [
    (192, "à"); (193, "á"); (194, "â"); (195, "ã"); (196, "ä"); (197, "å");
    (198, "æ"); (199, "ç"); (200, "è"); (201, "é"); (202, "ê"); (203, "ë");
    (204, "ì"); (205, "í"); (206, "î"); (207, "ï"); (208, "ð"); (209, "ñ");
    (210, "ò"); (211, "ó"); (212, "ô"); (213, "õ"); (214, "ö"); (216, "ø");
    (217, "ù"); (218, "ú"); (219, "û"); (220, "ü"); (221, "ý"); (222, "þ");
    (256, "ā"); (258, "ă"); (260, "ą"); (262, "ć"); (264, "ĉ"); (266, "ċ");
    (268, "č"); (270, "ď"); (272, "đ"); (274, "ē"); (276, "ĕ"); (278, "ė");
    (280, "ę"); (282, "ě"); (284, "ĝ"); (286, "ğ"); (288, "ġ"); (290, "ģ");
    (292, "ĥ"); (294, "ħ"); (296, "ĩ"); (298, "ī"); (300, "ĭ"); (302, "į");
    (304, "i̇"); (306, "ĳ"); (308, "ĵ"); (310, "ķ"); (313, "ĺ"); (315, "ļ");
    (317, "ľ"); (319, "ŀ"); (321, "ł"); (323, "ń"); (325, "ņ"); (327, "ň");
    (330, "ŋ"); (332, "ō"); (334, "ŏ"); (336, "ő"); (338, "œ"); (340, "ŕ");
    (342, "ŗ"); (344, "ř"); (346, "ś"); (348, "ŝ"); (350, "ş"); (352, "š");
    (354, "ţ"); (356, "ť"); (358, "ŧ"); (360, "ũ"); (362, "ū"); (364, "ŭ");
    (366, "ů"); (368, "ű"); (370, "ų"); (372, "ŵ"); (374, "ŷ"); (376, "ÿ");
    (377, "ź"); (379, "ż"); (381, "ž"); (385, "ɓ"); (386, "ƃ"); (388, "ƅ");
    (390, "ɔ"); (391, "ƈ"); (393, "ɖ"); (394, "ɗ"); (395, "ƌ"); (398, "ǝ");
    (399, "ə"); (400, "ɛ"); (401, "ƒ"); (403, "ɠ"); (404, "ɣ"); (406, "ɩ");
    (407, "ɨ"); (408, "ƙ"); (412, "ɯ"); (413, "ɲ"); (415, "ɵ"); (416, "ơ");
    (418, "ƣ"); (420, "ƥ"); (422, "ʀ"); (423, "ƨ"); (425, "ʃ"); (428, "ƭ");
    (430, "ʈ"); (431, "ư"); (433, "ʊ"); (434, "ʋ"); (435, "ƴ"); (437, "ƶ");
    (439, "ʒ"); (440, "ƹ"); (444, "ƽ"); (452, "ǆ"); (453, "ǆ"); (455, "ǉ");
    (456, "ǉ"); (458, "ǌ"); (459, "ǌ"); (461, "ǎ"); (463, "ǐ"); (465, "ǒ");
    (467, "ǔ"); (469, "ǖ"); (471, "ǘ"); (473, "ǚ"); (475, "ǜ"); (478, "ǟ");
    (480, "ǡ"); (482, "ǣ"); (484, "ǥ"); (486, "ǧ"); (488, "ǩ"); (490, "ǫ");
    (492, "ǭ"); (494, "ǯ"); (497, "ǳ"); (498, "ǳ"); (500, "ǵ"); (502, "ƕ");
    (503, "ƿ"); (504, "ǹ"); (506, "ǻ"); (508, "ǽ"); (510, "ǿ"); (512, "ȁ");
    (514, "ȃ"); (516, "ȅ"); (518, "ȇ"); (520, "ȉ"); (522, "ȋ"); (524, "ȍ");
    (526, "ȏ"); (528, "ȑ"); (530, "ȓ"); (532, "ȕ"); (534, "ȗ"); (536, "ș");
    (538, "ț"); (540, "ȝ"); (542, "ȟ"); (544, "ƞ"); (546, "ȣ"); (548, "ȥ");
    (550, "ȧ"); (552, "ȩ"); (554, "ȫ"); (556, "ȭ"); (558, "ȯ"); (560, "ȱ");
    (562, "ȳ"); (570, "ⱥ"); (571, "ȼ"); (573, "ƚ"); (574, "ⱦ"); (577, "ɂ");
    (579, "ƀ"); (580, "ʉ"); (581, "ʌ"); (582, "ɇ"); (584, "ɉ"); (586, "ɋ");
    (588, "ɍ"); (590, "ɏ"); (880, "ͱ"); (882, "ͳ"); (886, "ͷ"); (895, "ϳ");
    (902, "ά"); (904, "έ"); (905, "ή"); (906, "ί"); (908, "ό"); (910, "ύ");
    (911, "ώ"); (913, "α"); (914, "β"); (915, "γ"); (916, "δ"); (917, "ε");
    (918, "ζ"); (919, "η"); (920, "θ"); (921, "ι"); (922, "κ"); (923, "λ");
    (924, "μ"); (925, "ν"); (926, "ξ"); (927, "ο"); (928, "π"); (929, "ρ");
    (931, "σ"); (932, "τ"); (933, "υ"); (934, "φ"); (935, "χ"); (936, "ψ");
    (937, "ω"); (938, "ϊ"); (939, "ϋ"); (975, "ϗ"); (984, "ϙ"); (986, "ϛ");
    (988, "ϝ"); (990, "ϟ"); (992, "ϡ"); (994, "ϣ"); (996, "ϥ"); (998, "ϧ");
    (1000, "ϩ"); (1002, "ϫ"); (1004, "ϭ"); (1006, "ϯ"); (1012, "θ"); (1015, "ϸ");
    (1017, "ϲ"); (1018, "ϻ"); (1021, "ͻ"); (1022, "ͼ"); (1023, "ͽ"); (1024, "ѐ");
    (1025, "ё"); (1026, "ђ"); (1027, "ѓ"); (1028, "є"); (1029, "ѕ"); (1030, "і");
    (1031, "ї"); (1032, "ј"); (1033, "љ"); (1034, "њ"); (1035, "ћ"); (1036, "ќ");
    (1037, "ѝ"); (1038, "ў"); (1039, "џ"); (1040, "а"); (1041, "б"); (1042, "в");
    (1043, "г"); (1044, "д"); (1045, "е"); (1046, "ж"); (1047, "з"); (1048, "и");
    (1049, "й"); (1050, "к"); (1051, "л"); (1052, "м"); (1053, "н"); (1054, "о");
    (1055, "п"); (1056, "р"); (1057, "с"); (1058, "т"); (1059, "у"); (1060, "ф");
    (1061, "х"); (1062, "ц"); (1063, "ч"); (1064, "ш"); (1065, "щ"); (1066, "ъ");
    (1067, "ы"); (1068, "ь"); (1069, "э"); (1070, "ю"); (1071, "я"); (1120, "ѡ");
    (1122, "ѣ"); (1124, "ѥ"); (1126, "ѧ"); (1128, "ѩ"); (1130, "ѫ"); (1132, "ѭ");
    (1134, "ѯ"); (1136, "ѱ"); (1138, "ѳ"); (1140, "ѵ"); (1142, "ѷ"); (1144, "ѹ");
    (1146, "ѻ"); (1148, "ѽ"); (1150, "ѿ"); (1152, "ҁ"); (1162, "ҋ"); (1164, "ҍ");
    (1166, "ҏ"); (1168, "ґ"); (1170, "ғ"); (1172, "ҕ"); (1174, "җ"); (1176, "ҙ");
    (1178, "қ"); (1180, "ҝ"); (1182, "ҟ"); (1184, "ҡ"); (1186, "ң"); (1188, "ҥ");
    (1190, "ҧ"); (1192, "ҩ"); (1194, "ҫ"); (1196, "ҭ"); (1198, "ү"); (1200, "ұ");
    (1202, "ҳ"); (1204, "ҵ"); (1206, "ҷ"); (1208, "ҹ"); (1210, "һ"); (1212, "ҽ");
    (1214, "ҿ"); (1216, "ӏ"); (1217, "ӂ"); (1219, "ӄ"); (1221, "ӆ"); (1223, "ӈ");
    (1225, "ӊ"); (1227, "ӌ"); (1229, "ӎ"); (1232, "ӑ"); (1234, "ӓ"); (1236, "ӕ");
    (1238, "ӗ"); (1240, "ә"); (1242, "ӛ"); (1244, "ӝ"); (1246, "ӟ"); (1248, "ӡ");
    (1250, "ӣ"); (1252, "ӥ"); (1254, "ӧ"); (1256, "ө"); (1258, "ӫ"); (1260, "ӭ");
    (1262, "ӯ"); (1264, "ӱ"); (1266, "ӳ"); (1268, "ӵ"); (1270, "ӷ"); (1272, "ӹ");
    (1274, "ӻ"); (1276, "ӽ"); (1278, "ӿ"); (1280, "ԁ"); (1282, "ԃ"); (1284, "ԅ");
    (1286, "ԇ"); (1288, "ԉ"); (1290, "ԋ"); (1292, "ԍ"); (1294, "ԏ"); (1296, "ԑ");
    (1298, "ԓ"); (1300, "ԕ"); (1302, "ԗ"); (1304, "ԙ"); (1306, "ԛ"); (1308, "ԝ");
    (1310, "ԟ"); (1312, "ԡ"); (1314, "ԣ"); (1316, "ԥ"); (1318, "ԧ"); (1320, "ԩ");
    (1322, "ԫ"); (1324, "ԭ"); (1326, "ԯ"); (1329, "ա"); (1330, "բ"); (1331, "գ");
    (1332, "դ"); (1333, "ե"); (1334, "զ"); (1335, "է"); (1336, "ը"); (1337, "թ");
    (1338, "ժ"); (1339, "ի"); (1340, "լ"); (1341, "խ"); (1342, "ծ"); (1343, "կ");
    (1344, "հ"); (1345, "ձ"); (1346, "ղ"); (1347, "ճ"); (1348, "մ"); (1349, "յ");
    (1350, "ն"); (1351, "շ"); (1352, "ո"); (1353, "չ"); (1354, "պ"); (1355, "ջ");
    (1356, "ռ"); (1357, "ս"); (1358, "վ"); (1359, "տ"); (1360, "ր"); (1361, "ց");
    (1362, "ւ"); (1363, "փ"); (1364, "ք"); (1365, "օ"); (1366, "ֆ"); (4256, "ⴀ");
    (4257, "ⴁ"); (4258, "ⴂ"); (4259, "ⴃ"); (4260, "ⴄ"); (4261, "ⴅ"); (4262, "ⴆ");
    (4263, "ⴇ"); (4264, "ⴈ"); (4265, "ⴉ"); (4266, "ⴊ"); (4267, "ⴋ"); (4268, "ⴌ");
    (4269, "ⴍ"); (4270, "ⴎ"); (4271, "ⴏ"); (4272, "ⴐ"); (4273, "ⴑ"); (4274, "ⴒ");
    (4275, "ⴓ"); (4276, "ⴔ"); (4277, "ⴕ"); (4278, "ⴖ"); (4279, "ⴗ"); (4280, "ⴘ");
    (4281, "ⴙ"); (4282, "ⴚ"); (4283, "ⴛ"); (4284, "ⴜ"); (4285, "ⴝ"); (4286, "ⴞ");
    (4287, "ⴟ"); (4288, "ⴠ"); (4289, "ⴡ"); (4290, "ⴢ"); (4291, "ⴣ"); (4292, "ⴤ");
    (4293, "ⴥ"); (4295, "ⴧ"); (4301, "ⴭ"); (5024, "ꭰ"); (5025, "ꭱ"); (5026, "ꭲ");
    (5027, "ꭳ"); (5028, "ꭴ"); (5029, "ꭵ"); (5030, "ꭶ"); (5031, "ꭷ"); (5032, "ꭸ");
    (5033, "ꭹ"); (5034, "ꭺ"); (5035, "ꭻ"); (5036, "ꭼ"); (5037, "ꭽ"); (5038, "ꭾ");
    (5039, "ꭿ"); (5040, "ꮀ"); (5041, "ꮁ"); (5042, "ꮂ"); (5043, "ꮃ"); (5044, "ꮄ");
    (5045, "ꮅ"); (5046, "ꮆ"); (5047, "ꮇ"); (5048, "ꮈ"); (5049, "ꮉ"); (5050, "ꮊ");
    (5051, "ꮋ"); (5052, "ꮌ"); (5053, "ꮍ"); (5054, "ꮎ"); (5055, "ꮏ"); (5056, "ꮐ");
    (5057, "ꮑ"); (5058, "ꮒ"); (5059, "ꮓ"); (5060, "ꮔ"); (5061, "ꮕ"); (5062, "ꮖ");
    (5063, "ꮗ"); (5064, "ꮘ"); (5065, "ꮙ"); (5066, "ꮚ"); (5067, "ꮛ"); (5068, "ꮜ");
    (5069, "ꮝ"); (5070, "ꮞ"); (5071, "ꮟ"); (5072, "ꮠ"); (5073, "ꮡ"); (5074, "ꮢ");
    (5075, "ꮣ"); (5076, "ꮤ"); (5077, "ꮥ"); (5078, "ꮦ"); (5079, "ꮧ"); (5080, "ꮨ");
    (5081, "ꮩ"); (5082, "ꮪ"); (5083, "ꮫ"); (5084, "ꮬ"); (5085, "ꮭ"); (5086, "ꮮ");
    (5087, "ꮯ"); (5088, "ꮰ"); (5089, "ꮱ"); (5090, "ꮲ"); (5091, "ꮳ"); (5092, "ꮴ");
    (5093, "ꮵ"); (5094, "ꮶ"); (5095, "ꮷ"); (5096, "ꮸ"); (5097, "ꮹ"); (5098, "ꮺ");
    (5099, "ꮻ"); (5100, "ꮼ"); (5101, "ꮽ"); (5102, "ꮾ"); (5103, "ꮿ"); (5104, "ᏸ");
    (5105, "ᏹ"); (5106, "ᏺ"); (5107, "ᏻ"); (5108, "ᏼ"); (5109, "ᏽ"); (7312, "ა");
    (7313, "ბ"); (7314, "გ"); (7315, "დ"); (7316, "ე"); (7317, "ვ"); (7318, "ზ");
    (7319, "თ"); (7320, "ი"); (7321, "კ"); (7322, "ლ"); (7323, "მ"); (7324, "ნ");
    (7325, "ო"); (7326, "პ"); (7327, "ჟ"); (7328, "რ"); (7329, "ს"); (7330, "ტ");
    (7331, "უ"); (7332, "ფ"); (7333, "ქ"); (7334, "ღ"); (7335, "ყ"); (7336, "შ");
    (7337, "ჩ"); (7338, "ც"); (7339, "ძ"); (7340, "წ"); (7341, "ჭ"); (7342, "ხ");
    (7343, "ჯ"); (7344, "ჰ"); (7345, "ჱ"); (7346, "ჲ"); (7347, "ჳ"); (7348, "ჴ");
    (7349, "ჵ"); (7350, "ჶ"); (7351, "ჷ"); (7352, "ჸ"); (7353, "ჹ"); (7354, "ჺ");
    (7357, "ჽ"); (7358, "ჾ"); (7359, "ჿ"); (7680, "ḁ"); (7682, "ḃ"); (7684, "ḅ");
    (7686, "ḇ"); (7688, "ḉ"); (7690, "ḋ"); (7692, "ḍ"); (7694, "ḏ"); (7696, "ḑ");
    (7698, "ḓ"); (7700, "ḕ"); (7702, "ḗ"); (7704, "ḙ"); (7706, "ḛ"); (7708, "ḝ");
    (7710, "ḟ"); (7712, "ḡ"); (7714, "ḣ"); (7716, "ḥ"); (7718, "ḧ"); (7720, "ḩ");
    (7722, "ḫ"); (7724, "ḭ"); (7726, "ḯ"); (7728, "ḱ"); (7730, "ḳ"); (7732, "ḵ");
    (7734, "ḷ"); (7736, "ḹ"); (7738, "ḻ"); (7740, "ḽ"); (7742, "ḿ"); (7744, "ṁ");
    (7746, "ṃ"); (7748, "ṅ"); (7750, "ṇ"); (7752, "ṉ"); (7754, "ṋ"); (7756, "ṍ");
    (7758, "ṏ"); (7760, "ṑ"); (7762, "ṓ"); (7764, "ṕ"); (7766, "ṗ"); (7768, "ṙ");
    (7770, "ṛ"); (7772, "ṝ"); (7774, "ṟ"); (7776, "ṡ"); (7778, "ṣ"); (7780, "ṥ");
    (7782, "ṧ"); (7784, "ṩ"); (7786, "ṫ"); (7788, "ṭ"); (7790, "ṯ"); (7792, "ṱ");
    (7794, "ṳ"); (7796, "ṵ"); (7798, "ṷ"); (7800, "ṹ"); (7802, "ṻ"); (7804, "ṽ");
    (7806, "ṿ"); (7808, "ẁ"); (7810, "ẃ"); (7812, "ẅ"); (7814, "ẇ"); (7816, "ẉ");
    (7818, "ẋ"); (7820, "ẍ"); (7822, "ẏ"); (7824, "ẑ"); (7826, "ẓ"); (7828, "ẕ");
    (7838, "ß"); (7840, "ạ"); (7842, "ả"); (7844, "ấ"); (7846, "ầ"); (7848, "ẩ");
    (7850, "ẫ"); (7852, "ậ"); (7854, "ắ"); (7856, "ằ"); (7858, "ẳ"); (7860, "ẵ");
    (7862, "ặ"); (7864, "ẹ"); (7866, "ẻ"); (7868, "ẽ"); (7870, "ế"); (7872, "ề");
    (7874, "ể"); (7876, "ễ"); (7878, "ệ"); (7880, "ỉ"); (7882, "ị"); (7884, "ọ");
    (7886, "ỏ"); (7888, "ố"); (7890, "ồ"); (7892, "ổ"); (7894, "ỗ"); (7896, "ộ");
    (7898, "ớ"); (7900, "ờ"); (7902, "ở"); (7904, "ỡ"); (7906, "ợ"); (7908, "ụ");
    (7910, "ủ"); (7912, "ứ"); (7914, "ừ"); (7916, "ử"); (7918, "ữ"); (7920, "ự");
    (7922, "ỳ"); (7924, "ỵ"); (7926, "ỷ"); (7928, "ỹ"); (7930, "ỻ"); (7932, "ỽ");
    (7934, "ỿ"); (7944, "ἀ"); (7945, "ἁ"); (7946, "ἂ"); (7947, "ἃ"); (7948, "ἄ");
    (7949, "ἅ"); (7950, "ἆ"); (7951, "ἇ"); (7960, "ἐ"); (7961, "ἑ"); (7962, "ἒ");
    (7963, "ἓ"); (7964, "ἔ"); (7965, "ἕ"); (7976, "ἠ"); (7977, "ἡ"); (7978, "ἢ");
    (7979, "ἣ"); (7980, "ἤ"); (7981, "ἥ"); (7982, "ἦ"); (7983, "ἧ"); (7992, "ἰ");
    (7993, "ἱ"); (7994, "ἲ"); (7995, "ἳ"); (7996, "ἴ"); (7997, "ἵ"); (7998, "ἶ");
    (7999, "ἷ"); (8008, "ὀ"); (8009, "ὁ"); (8010, "ὂ"); (8011, "ὃ"); (8012, "ὄ");
    (8013, "ὅ"); (8025, "ὑ"); (8027, "ὓ"); (8029, "ὕ"); (8031, "ὗ"); (8040, "ὠ");
    (8041, "ὡ"); (8042, "ὢ"); (8043, "ὣ"); (8044, "ὤ"); (8045, "ὥ"); (8046, "ὦ");
    (8047, "ὧ"); (8072, "ᾀ"); (8073, "ᾁ"); (8074, "ᾂ"); (8075, "ᾃ"); (8076, "ᾄ");
    (8077, "ᾅ"); (8078, "ᾆ"); (8079, "ᾇ"); (8088, "ᾐ"); (8089, "ᾑ"); (8090, "ᾒ");
    (8091, "ᾓ"); (8092, "ᾔ"); (8093, "ᾕ"); (8094, "ᾖ"); (8095, "ᾗ"); (8104, "ᾠ");
    (8105, "ᾡ"); (8106, "ᾢ"); (8107, "ᾣ"); (8108, "ᾤ"); (8109, "ᾥ"); (8110, "ᾦ");
    (8111, "ᾧ"); (8120, "ᾰ"); (8121, "ᾱ"); (8122, "ὰ"); (8123, "ά"); (8124, "ᾳ");
    (8136, "ὲ"); (8137, "έ"); (8138, "ὴ"); (8139, "ή"); (8140, "ῃ"); (8152, "ῐ");
    (8153, "ῑ"); (8154, "ὶ"); (8155, "ί"); (8168, "ῠ"); (8169, "ῡ"); (8170, "ὺ");
    (8171, "ύ"); (8172, "ῥ"); (8184, "ὸ"); (8185, "ό"); (8186, "ὼ"); (8187, "ώ");
    (8188, "ῳ"); (8486, "ω"); (8490, "k"); (8491, "å"); (8498, "ⅎ"); (8544, "ⅰ");
    (8545, "ⅱ"); (8546, "ⅲ"); (8547, "ⅳ"); (8548, "ⅴ"); (8549, "ⅵ"); (8550, "ⅶ");
    (8551, "ⅷ"); (8552, "ⅸ"); (8553, "ⅹ"); (8554, "ⅺ"); (8555, "ⅻ"); (8556, "ⅼ");
    (8557, "ⅽ"); (8558, "ⅾ"); (8559, "ⅿ"); (8579, "ↄ"); (9398, "ⓐ"); (9399, "ⓑ");
    (9400, "ⓒ"); (9401, "ⓓ"); (9402, "ⓔ"); (9403, "ⓕ"); (9404, "ⓖ"); (9405, "ⓗ");
    (9406, "ⓘ"); (9407, "ⓙ"); (9408, "ⓚ"); (9409, "ⓛ"); (9410, "ⓜ"); (9411, "ⓝ");
    (9412, "ⓞ"); (9413, "ⓟ"); (9414, "ⓠ"); (9415, "ⓡ"); (9416, "ⓢ"); (9417, "ⓣ");
    (9418, "ⓤ"); (9419, "ⓥ"); (9420, "ⓦ"); (9421, "ⓧ"); (9422, "ⓨ"); (9423, "ⓩ");
    (11264, "ⰰ"); (11265, "ⰱ"); (11266, "ⰲ"); (11267, "ⰳ"); (11268, "ⰴ"); (11269, "ⰵ");
    (11270, "ⰶ"); (11271, "ⰷ"); (11272, "ⰸ"); (11273, "ⰹ"); (11274, "ⰺ"); (11275, "ⰻ");
    (11276, "ⰼ"); (11277, "ⰽ"); (11278, "ⰾ"); (11279, "ⰿ"); (11280, "ⱀ"); (11281, "ⱁ");
    (11282, "ⱂ"); (11283, "ⱃ"); (11284, "ⱄ"); (11285, "ⱅ"); (11286, "ⱆ"); (11287, "ⱇ");
    (11288, "ⱈ"); (11289, "ⱉ"); (11290, "ⱊ"); (11291, "ⱋ"); (11292, "ⱌ"); (11293, "ⱍ");
    (11294, "ⱎ"); (11295, "ⱏ"); (11296, "ⱐ"); (11297, "ⱑ"); (11298, "ⱒ"); (11299, "ⱓ");
    (11300, "ⱔ"); (11301, "ⱕ"); (11302, "ⱖ"); (11303, "ⱗ"); (11304, "ⱘ"); (11305, "ⱙ");
    (11306, "ⱚ"); (11307, "ⱛ"); (11308, "ⱜ"); (11309, "ⱝ"); (11310, "ⱞ"); (11311, "ⱟ");
    (11360, "ⱡ"); (11362, "ɫ"); (11363, "ᵽ"); (11364, "ɽ"); (11367, "ⱨ"); (11369, "ⱪ");
    (11371, "ⱬ"); (11373, "ɑ"); (11374, "ɱ"); (11375, "ɐ"); (11376, "ɒ"); (11378, "ⱳ");
    (11381, "ⱶ"); (11390, "ȿ"); (11391, "ɀ"); (11392, "ⲁ"); (11394, "ⲃ"); (11396, "ⲅ");
    (11398, "ⲇ"); (11400, "ⲉ"); (11402, "ⲋ"); (11404, "ⲍ"); (11406, "ⲏ"); (11408, "ⲑ");
    (11410, "ⲓ"); (11412, "ⲕ"); (11414, "ⲗ"); (11416, "ⲙ"); (11418, "ⲛ"); (11420, "ⲝ");
    (11422, "ⲟ"); (11424, "ⲡ"); (11426, "ⲣ"); (11428, "ⲥ"); (11430, "ⲧ"); (11432, "ⲩ");
    (11434, "ⲫ"); (11436, "ⲭ"); (11438, "ⲯ"); (11440, "ⲱ"); (11442, "ⲳ"); (11444, "ⲵ");
    (11446, "ⲷ"); (11448, "ⲹ"); (11450, "ⲻ"); (11452, "ⲽ"); (11454, "ⲿ"); (11456, "ⳁ");
    (11458, "ⳃ"); (11460, "ⳅ"); (11462, "ⳇ"); (11464, "ⳉ"); (11466, "ⳋ"); (11468, "ⳍ");
    (11470, "ⳏ"); (11472, "ⳑ"); (11474, "ⳓ"); (11476, "ⳕ"); (11478, "ⳗ"); (11480, "ⳙ");
    (11482, "ⳛ"); (11484, "ⳝ"); (11486, "ⳟ"); (11488, "ⳡ"); (11490, "ⳣ"); (11499, "ⳬ");
    (11501, "ⳮ"); (11506, "ⳳ"); (42560, "ꙁ"); (42562, "ꙃ"); (42564, "ꙅ"); (42566, "ꙇ");
    (42568, "ꙉ"); (42570, "ꙋ"); (42572, "ꙍ"); (42574, "ꙏ"); (42576, "ꙑ"); (42578, "ꙓ");
    (42580, "ꙕ"); (42582, "ꙗ"); (42584, "ꙙ"); (42586, "ꙛ"); (42588, "ꙝ"); (42590, "ꙟ");
    (42592, "ꙡ"); (42594, "ꙣ"); (42596, "ꙥ"); (42598, "ꙧ"); (42600, "ꙩ"); (42602, "ꙫ");
    (42604, "ꙭ"); (42624, "ꚁ"); (42626, "ꚃ"); (42628, "ꚅ"); (42630, "ꚇ"); (42632, "ꚉ");
    (42634, "ꚋ"); (42636, "ꚍ"); (42638, "ꚏ"); (42640, "ꚑ"); (42642, "ꚓ"); (42644, "ꚕ");
    (42646, "ꚗ"); (42648, "ꚙ"); (42650, "ꚛ"); (42786, "ꜣ"); (42788, "ꜥ"); (42790, "ꜧ");
    (42792, "ꜩ"); (42794, "ꜫ"); (42796, "ꜭ"); (42798, "ꜯ"); (42802, "ꜳ"); (42804, "ꜵ");
    (42806, "ꜷ"); (42808, "ꜹ"); (42810, "ꜻ"); (42812, "ꜽ"); (42814, "ꜿ"); (42816, "ꝁ");
    (42818, "ꝃ"); (42820, "ꝅ"); (42822, "ꝇ"); (42824, "ꝉ"); (42826, "ꝋ"); (42828, "ꝍ");
    (42830, "ꝏ"); (42832, "ꝑ"); (42834, "ꝓ"); (42836, "ꝕ"); (42838, "ꝗ"); (42840, "ꝙ");
    (42842, "ꝛ"); (42844, "ꝝ"); (42846, "ꝟ"); (42848, "ꝡ"); (42850, "ꝣ"); (42852, "ꝥ");
    (42854, "ꝧ"); (42856, "ꝩ"); (42858, "ꝫ"); (42860, "ꝭ"); (42862, "ꝯ"); (42873, "ꝺ");
    (42875, "ꝼ"); (42877, "ᵹ"); (42878, "ꝿ"); (42880, "ꞁ"); (42882, "ꞃ"); (42884, "ꞅ");
    (42886, "ꞇ"); (42891, "ꞌ"); (42893, "ɥ"); (42896, "ꞑ"); (42898, "ꞓ"); (42902, "ꞗ");
    (42904, "ꞙ"); (42906, "ꞛ"); (42908, "ꞝ"); (42910, "ꞟ"); (42912, "ꞡ"); (42914, "ꞣ");
    (42916, "ꞥ"); (42918, "ꞧ"); (42920, "ꞩ"); (42922, "ɦ"); (42923, "ɜ"); (42924, "ɡ");
    (42925, "ɬ"); (42926, "ɪ"); (42928, "ʞ"); (42929, "ʇ"); (42930, "ʝ"); (42931, "ꭓ");
    (42932, "ꞵ"); (42934, "ꞷ"); (42936, "ꞹ"); (42938, "ꞻ"); (42940, "ꞽ"); (42942, "ꞿ");
    (42944, "ꟁ"); (42946, "ꟃ"); (42948, "ꞔ"); (42949, "ʂ"); (42950, "ᶎ"); (42951, "ꟈ");
    (42953, "ꟊ"); (42960, "ꟑ"); (42966, "ꟗ"); (42968, "ꟙ"); (42997, "ꟶ"); (65313, "ａ");
    (65314, "ｂ"); (65315, "ｃ"); (65316, "ｄ"); (65317, "ｅ"); (65318, "ｆ"); (65319, "ｇ");
    (65320, "ｈ"); (65321, "ｉ"); (65322, "ｊ"); (65323, "ｋ"); (65324, "ｌ"); (65325, "ｍ");
    (65326, "ｎ"); (65327, "ｏ"); (65328, "ｐ"); (65329, "ｑ"); (65330, "ｒ"); (65331, "ｓ");
    (65332, "ｔ"); (65333, "ｕ"); (65334, "ｖ"); (65335, "ｗ"); (65336, "ｘ"); (65337, "ｙ");
    (65338, "ｚ"); (66560, "𐐨"); (66561, "𐐩"); (66562, "𐐪"); (66563, "𐐫"); (66564, "𐐬");
    (66565, "𐐭"); (66566, "𐐮"); (66567, "𐐯"); (66568, "𐐰"); (66569, "𐐱"); (66570, "𐐲");
    (66571, "𐐳"); (66572, "𐐴"); (66573, "𐐵"); (66574, "𐐶"); (66575, "𐐷"); (66576, "𐐸");
    (66577, "𐐹"); (66578, "𐐺"); (66579, "𐐻"); (66580, "𐐼"); (66581, "𐐽"); (66582, "𐐾");
    (66583, "𐐿"); (66584, "𐑀"); (66585, "𐑁"); (66586, "𐑂"); (66587, "𐑃"); (66588, "𐑄");
    (66589, "𐑅"); (66590, "𐑆"); (66591, "𐑇"); (66592, "𐑈"); (66593, "𐑉"); (66594, "𐑊");
    (66595, "𐑋"); (66596, "𐑌"); (66597, "𐑍"); (66598, "𐑎"); (66599, "𐑏"); (66736, "𐓘");
    (66737, "𐓙"); (66738, "𐓚"); (66739, "𐓛"); (66740, "𐓜"); (66741, "𐓝"); (66742, "𐓞");
    (66743, "𐓟"); (66744, "𐓠"); (66745, "𐓡"); (66746, "𐓢"); (66747, "𐓣"); (66748, "𐓤");
    (66749, "𐓥"); (66750, "𐓦"); (66751, "𐓧"); (66752, "𐓨"); (66753, "𐓩"); (66754, "𐓪");
    (66755, "𐓫"); (66756, "𐓬"); (66757, "𐓭"); (66758, "𐓮"); (66759, "𐓯"); (66760, "𐓰");
    (66761, "𐓱"); (66762, "𐓲"); (66763, "𐓳"); (66764, "𐓴"); (66765, "𐓵"); (66766, "𐓶");
    (66767, "𐓷"); (66768, "𐓸"); (66769, "𐓹"); (66770, "𐓺"); (66771, "𐓻"); (66928, "𐖗");
    (66929, "𐖘"); (66930, "𐖙"); (66931, "𐖚"); (66932, "𐖛"); (66933, "𐖜"); (66934, "𐖝");
    (66935, "𐖞"); (66936, "𐖟"); (66937, "𐖠"); (66938, "𐖡"); (66940, "𐖣"); (66941, "𐖤");
    (66942, "𐖥"); (66943, "𐖦"); (66944, "𐖧"); (66945, "𐖨"); (66946, "𐖩"); (66947, "𐖪");
    (66948, "𐖫"); (66949, "𐖬"); (66950, "𐖭"); (66951, "𐖮"); (66952, "𐖯"); (66953, "𐖰");
    (66954, "𐖱"); (66956, "𐖳"); (66957, "𐖴"); (66958, "𐖵"); (66959, "𐖶"); (66960, "𐖷");
    (66961, "𐖸"); (66962, "𐖹"); (66964, "𐖻"); (66965, "𐖼"); (68736, "𐳀"); (68737, "𐳁");
    (68738, "𐳂"); (68739, "𐳃"); (68740, "𐳄"); (68741, "𐳅"); (68742, "𐳆"); (68743, "𐳇");
    (68744, "𐳈"); (68745, "𐳉"); (68746, "𐳊"); (68747, "𐳋"); (68748, "𐳌"); (68749, "𐳍");
    (68750, "𐳎"); (68751, "𐳏"); (68752, "𐳐"); (68753, "𐳑"); (68754, "𐳒"); (68755, "𐳓");
    (68756, "𐳔"); (68757, "𐳕"); (68758, "𐳖"); (68759, "𐳗"); (68760, "𐳘"); (68761, "𐳙");
    (68762, "𐳚"); (68763, "𐳛"); (68764, "𐳜"); (68765, "𐳝"); (68766, "𐳞"); (68767, "𐳟");
    (68768, "𐳠"); (68769, "𐳡"); (68770, "𐳢"); (68771, "𐳣"); (68772, "𐳤"); (68773, "𐳥");
    (68774, "𐳦"); (68775, "𐳧"); (68776, "𐳨"); (68777, "𐳩"); (68778, "𐳪"); (68779, "𐳫");
    (68780, "𐳬"); (68781, "𐳭"); (68782, "𐳮"); (68783, "𐳯"); (68784, "𐳰"); (68785, "𐳱");
    (68786, "𐳲"); (71840, "𑣀"); (71841, "𑣁"); (71842, "𑣂"); (71843, "𑣃"); (71844, "𑣄");
    (71845, "𑣅"); (71846, "𑣆"); (71847, "𑣇"); (71848, "𑣈"); (71849, "𑣉"); (71850, "𑣊");
    (71851, "𑣋"); (71852, "𑣌"); (71853, "𑣍"); (71854, "𑣎"); (71855, "𑣏"); (71856, "𑣐");
    (71857, "𑣑"); (71858, "𑣒"); (71859, "𑣓"); (71860, "𑣔"); (71861, "𑣕"); (71862, "𑣖");
    (71863, "𑣗"); (71864, "𑣘"); (71865, "𑣙"); (71866, "𑣚"); (71867, "𑣛"); (71868, "𑣜");
    (71869, "𑣝"); (71870, "𑣞"); (71871, "𑣟"); (93760, "𖹠"); (93761, "𖹡"); (93762, "𖹢");
    (93763, "𖹣"); (93764, "𖹤"); (93765, "𖹥"); (93766, "𖹦"); (93767, "𖹧"); (93768, "𖹨");
    (93769, "𖹩"); (93770, "𖹪"); (93771, "𖹫"); (93772, "𖹬"); (93773, "𖹭"); (93774, "𖹮");
    (93775, "𖹯"); (93776, "𖹰"); (93777, "𖹱"); (93778, "𖹲"); (93779, "𖹳"); (93780, "𖹴");
    (93781, "𖹵"); (93782, "𖹶"); (93783, "𖹷"); (93784, "𖹸"); (93785, "𖹹"); (93786, "𖹺");
    (93787, "𖹻"); (93788, "𖹼"); (93789, "𖹽"); (93790, "𖹾"); (93791, "𖹿"); (125184, "𞤢");
    (125185, "𞤣"); (125186, "𞤤"); (125187, "𞤥"); (125188, "𞤦"); (125189, "𞤧"); (125190, "𞤨");
    (125191, "𞤩"); (125192, "𞤪"); (125193, "𞤫"); (125194, "𞤬"); (125195, "𞤭"); (125196, "𞤮");
    (125197, "𞤯"); (125198, "𞤰"); (125199, "𞤱"); (125200, "𞤲"); (125201, "𞤳"); (125202, "𞤴");
    (125203, "𞤵"); (125204, "𞤶"); (125205, "𞤷"); (125206, "𞤸"); (125207, "𞤹"); (125208, "𞤺");
    (125209, "𞤻"); (125210, "𞤼"); (125211, "𞤽"); (125212, "𞤾"); (125213, "𞤿"); (125214, "𞥀");
    (125215, "𞥁"); (125216, "𞥂"); (125217, "𞥃") ]%N.

(** The characters with the property Cased, and those with the property
    Case_Ignorable: they decide the form of a lowered capital sigma. *)
Definition casedRanges : list (N * N) :=
  [
    (65, 90); (97, 122); (170, 170); (181, 181); (186, 186); (192, 214);
    (216, 246); (248, 442); (444, 447); (452, 659); (661, 687); (880, 883);
    (886, 887); (891, 893); (895, 895); (902, 902); (904, 906); (908, 908);
    (910, 929); (931, 1013); (1015, 1153); (1162, 1327); (1329, 1366); (1376, 1416);
    (4256, 4293); (4295, 4295); (4301, 4301); (4304, 4346); (4349, 4351); (5024, 5109);
    (5112, 5117); (7296, 7304); (7312, 7354); (7357, 7359); (7424, 7467); (7531, 7543);
    (7545, 7578); (7680, 7957); (7960, 7965); (7968, 8005); (8008, 8013); (8016, 8023);
    (8025, 8025); (8027, 8027); (8029, 8029); (8031, 8061); (8064, 8116); (8118, 8124);
    (8126, 8126); (8130, 8132); (8134, 8140); (8144, 8147); (8150, 8155); (8160, 8172);
    (8178, 8180); (8182, 8188); (8450, 8450); (8455, 8455); (8458, 8467); (8469, 8469);
    (8473, 8477); (8484, 8484); (8486, 8486); (8488, 8488); (8490, 8493); (8495, 8500);
    (8505, 8505); (8508, 8511); (8517, 8521); (8526, 8526); (8544, 8575); (8579, 8580);
    (9398, 9449); (11264, 11387); (11390, 11492); (11499, 11502); (11506, 11507); (11520, 11557);
    (11559, 11559); (11565, 11565); (42560, 42605); (42624, 42651); (42786, 42863); (42865, 42887);
    (42891, 42894); (42896, 42954); (42960, 42961); (42963, 42963); (42965, 42969); (42997, 42998);
    (43002, 43002); (43824, 43866); (43872, 43880); (43888, 43967); (64256, 64262); (64275, 64279);
    (65313, 65338); (65345, 65370); (66560, 66639); (66736, 66771); (66776, 66811); (66928, 66938);
    (66940, 66954); (66956, 66962); (66964, 66965); (66967, 66977); (66979, 66993); (66995, 67001);
    (67003, 67004); (68736, 68786); (68800, 68850); (71840, 71903); (93760, 93823); (119808, 119892);
    (119894, 119964); (119966, 119967); (119970, 119970); (119973, 119974); (119977, 119980); (119982, 119993);
    (119995, 119995); (119997, 120003); (120005, 120069); (120071, 120074); (120077, 120084); (120086, 120092);
    (120094, 120121); (120123, 120126); (120128, 120132); (120134, 120134); (120138, 120144); (120146, 120485);
    (120488, 120512); (120514, 120538); (120540, 120570); (120572, 120596); (120598, 120628); (120630, 120654);
    (120656, 120686); (120688, 120712); (120714, 120744); (120746, 120770); (120772, 120779); (122624, 122633);
    (122635, 122654); (125184, 125251); (127280, 127305); (127312, 127337); (127344, 127369) ]%N.

Definition caseIgnorableRanges : list (N * N) :=
  [
    (39, 39); (46, 46); (58, 58); (94, 94); (96, 96); (168, 168);
    (173, 173); (175, 175); (180, 180); (183, 184); (688, 879); (884, 885);
    (890, 890); (900, 901); (903, 903); (1155, 1161); (1369, 1369); (1375, 1375);
    (1425, 1469); (1471, 1471); (1473, 1474); (1476, 1477); (1479, 1479); (1524, 1524);
    (1536, 1541); (1552, 1562); (1564, 1564); (1600, 1600); (1611, 1631); (1648, 1648);
    (1750, 1757); (1759, 1768); (1770, 1773); (1807, 1807); (1809, 1809); (1840, 1866);
    (1958, 1968); (2027, 2037); (2042, 2042); (2045, 2045); (2070, 2093); (2137, 2139);
    (2184, 2184); (2192, 2193); (2200, 2207); (2249, 2306); (2362, 2362); (2364, 2364);
    (2369, 2376); (2381, 2381); (2385, 2391); (2402, 2403); (2417, 2417); (2433, 2433);
    (2492, 2492); (2497, 2500); (2509, 2509); (2530, 2531); (2558, 2558); (2561, 2562);
    (2620, 2620); (2625, 2626); (2631, 2632); (2635, 2637); (2641, 2641); (2672, 2673);
    (2677, 2677); (2689, 2690); (2748, 2748); (2753, 2757); (2759, 2760); (2765, 2765);
    (2786, 2787); (2810, 2815); (2817, 2817); (2876, 2876); (2879, 2879); (2881, 2884);
    (2893, 2893); (2901, 2902); (2914, 2915); (2946, 2946); (3008, 3008); (3021, 3021);
    (3072, 3072); (3076, 3076); (3132, 3132); (3134, 3136); (3142, 3144); (3146, 3149);
    (3157, 3158); (3170, 3171); (3201, 3201); (3260, 3260); (3263, 3263); (3270, 3270);
    (3276, 3277); (3298, 3299); (3328, 3329); (3387, 3388); (3393, 3396); (3405, 3405);
    (3426, 3427); (3457, 3457); (3530, 3530); (3538, 3540); (3542, 3542); (3633, 3633);
    (3636, 3642); (3654, 3662); (3761, 3761); (3764, 3772); (3782, 3782); (3784, 3789);
    (3864, 3865); (3893, 3893); (3895, 3895); (3897, 3897); (3953, 3966); (3968, 3972);
    (3974, 3975); (3981, 3991); (3993, 4028); (4038, 4038); (4141, 4144); (4146, 4151);
    (4153, 4154); (4157, 4158); (4184, 4185); (4190, 4192); (4209, 4212); (4226, 4226);
    (4229, 4230); (4237, 4237); (4253, 4253); (4348, 4348); (4957, 4959); (5906, 5908);
    (5938, 5939); (5970, 5971); (6002, 6003); (6068, 6069); (6071, 6077); (6086, 6086);
    (6089, 6099); (6103, 6103); (6109, 6109); (6155, 6159); (6211, 6211); (6277, 6278);
    (6313, 6313); (6432, 6434); (6439, 6440); (6450, 6450); (6457, 6459); (6679, 6680);
    (6683, 6683); (6742, 6742); (6744, 6750); (6752, 6752); (6754, 6754); (6757, 6764);
    (6771, 6780); (6783, 6783); (6823, 6823); (6832, 6862); (6912, 6915); (6964, 6964);
    (6966, 6970); (6972, 6972); (6978, 6978); (7019, 7027); (7040, 7041); (7074, 7077);
    (7080, 7081); (7083, 7085); (7142, 7142); (7144, 7145); (7149, 7149); (7151, 7153);
    (7212, 7219); (7222, 7223); (7288, 7293); (7376, 7378); (7380, 7392); (7394, 7400);
    (7405, 7405); (7412, 7412); (7416, 7417); (7468, 7530); (7544, 7544); (7579, 7679);
    (8125, 8125); (8127, 8129); (8141, 8143); (8157, 8159); (8173, 8175); (8189, 8190);
    (8203, 8207); (8216, 8217); (8228, 8228); (8231, 8231); (8234, 8238); (8288, 8292);
    (8294, 8303); (8305, 8305); (8319, 8319); (8336, 8348); (8400, 8432); (11388, 11389);
    (11503, 11505); (11631, 11631); (11647, 11647); (11744, 11775); (11823, 11823); (12293, 12293);
    (12330, 12333); (12337, 12341); (12347, 12347); (12441, 12446); (12540, 12542); (40981, 40981);
    (42232, 42237); (42508, 42508); (42607, 42610); (42612, 42621); (42623, 42623); (42652, 42655);
    (42736, 42737); (42752, 42785); (42864, 42864); (42888, 42890); (42994, 42996); (43000, 43001);
    (43010, 43010); (43014, 43014); (43019, 43019); (43045, 43046); (43052, 43052); (43204, 43205);
    (43232, 43249); (43263, 43263); (43302, 43309); (43335, 43345); (43392, 43394); (43443, 43443);
    (43446, 43449); (43452, 43453); (43471, 43471); (43493, 43494); (43561, 43566); (43569, 43570);
    (43573, 43574); (43587, 43587); (43596, 43596); (43632, 43632); (43644, 43644); (43696, 43696);
    (43698, 43700); (43703, 43704); (43710, 43711); (43713, 43713); (43741, 43741); (43756, 43757);
    (43763, 43764); (43766, 43766); (43867, 43871); (43881, 43883); (44005, 44005); (44008, 44008);
    (44013, 44013); (64286, 64286); (64434, 64450); (65024, 65039); (65043, 65043); (65056, 65071);
    (65106, 65106); (65109, 65109); (65279, 65279); (65287, 65287); (65294, 65294); (65306, 65306);
    (65342, 65342); (65344, 65344); (65392, 65392); (65438, 65439); (65507, 65507); (65529, 65531);
    (66045, 66045); (66272, 66272); (66422, 66426); (67456, 67461); (67463, 67504); (67506, 67514);
    (68097, 68099); (68101, 68102); (68108, 68111); (68152, 68154); (68159, 68159); (68325, 68326);
    (68900, 68903); (69291, 69292); (69446, 69456); (69506, 69509); (69633, 69633); (69688, 69702);
    (69744, 69744); (69747, 69748); (69759, 69761); (69811, 69814); (69817, 69818); (69821, 69821);
    (69826, 69826); (69837, 69837); (69888, 69890); (69927, 69931); (69933, 69940); (70003, 70003);
    (70016, 70017); (70070, 70078); (70089, 70092); (70095, 70095); (70191, 70193); (70196, 70196);
    (70198, 70199); (70206, 70206); (70367, 70367); (70371, 70378); (70400, 70401); (70459, 70460);
    (70464, 70464); (70502, 70508); (70512, 70516); (70712, 70719); (70722, 70724); (70726, 70726);
    (70750, 70750); (70835, 70840); (70842, 70842); (70847, 70848); (70850, 70851); (71090, 71093);
    (71100, 71101); (71103, 71104); (71132, 71133); (71219, 71226); (71229, 71229); (71231, 71232);
    (71339, 71339); (71341, 71341); (71344, 71349); (71351, 71351); (71453, 71455); (71458, 71461);
    (71463, 71467); (71727, 71735); (71737, 71738); (71995, 71996); (71998, 71998); (72003, 72003);
    (72148, 72151); (72154, 72155); (72160, 72160); (72193, 72202); (72243, 72248); (72251, 72254);
    (72263, 72263); (72273, 72278); (72281, 72283); (72330, 72342); (72344, 72345); (72752, 72758);
    (72760, 72765); (72767, 72767); (72850, 72871); (72874, 72880); (72882, 72883); (72885, 72886);
    (73009, 73014); (73018, 73018); (73020, 73021); (73023, 73029); (73031, 73031); (73104, 73105);
    (73109, 73109); (73111, 73111); (73459, 73460); (78896, 78904); (92912, 92916); (92976, 92982);
    (92992, 92995); (94031, 94031); (94095, 94111); (94176, 94177); (94179, 94180); (110576, 110579);
    (110581, 110587); (110589, 110590); (113821, 113822); (113824, 113827); (118528, 118573); (118576, 118598);
    (119143, 119145); (119155, 119170); (119173, 119179); (119210, 119213); (119362, 119364); (121344, 121398);
    (121403, 121452); (121461, 121461); (121476, 121476); (121499, 121503); (121505, 121519); (122880, 122886);
    (122888, 122904); (122907, 122913); (122915, 122916); (122918, 122922); (123184, 123197); (123566, 123566);
    (123628, 123631); (125136, 125142); (125252, 125259); (127995, 127999); (917505, 917505); (917536, 917631);
    (917760, 917999) ]%N.

Fixpoint assoc (n : N) (table : list (N * string)) : option string :=
  match table with
  | [] => None
  | (k, v) :: table' => if (k =? n)%N then Some v else assoc n table'
  end.

Definition lowerChar (ch : string) : string :=
  match ch with
  | String a EmptyString =>
      if isAscii a then String (lowerAscii a) EmptyString else ch
  | _ =>
      match assoc (codePoint ch) lowerTable with
      | Some low => low
      | None => ch
      end
  end.

Definition isCased (ch : string) : bool := inRanges (codePoint ch) casedRanges.

Definition isCaseIgnorable (ch : string) : bool :=
  inRanges (codePoint ch) caseIgnorableRanges.

Definition capitalSigma : string := "Σ".
Definition smallSigma : string := "σ".
Definition finalSigma : string := "ς".

(** The first character ahead that is not case-ignorable is cased. *)
Fixpoint beforeCased (cs : list string) : bool :=
  match cs with
  | [] => false
  | ch :: rest => if isCaseIgnorable ch then beforeCased rest else isCased ch
  end.

(** Lowercasing, character by character.  [afterCased] tells whether the
    last character behind that is not case-ignorable is cased: a capital
    sigma after a cased letter and not before one becomes a final sigma. *)
Fixpoint lowerChars (afterCased : bool) (cs : list string) : list string :=
  match cs with
  | [] => []
  | ch :: rest =>
      (if ch =? capitalSigma
       then if afterCased && negb (beforeCased rest) then finalSigma else smallSigma
       else lowerChar ch)
      :: lowerChars (if isCaseIgnorable ch then afterCased else isCased ch) rest
  end.

(** [String.prototype.toLowerCase]. *)
Definition toLowerCase (s : string) : string :=
  join (lowerChars false (chars s)).

(** *** Searching *)

Fixpoint startsWith (s needle : string) {struct needle} : bool :=
  match needle, s with
  | EmptyString, _ => true
  | String _ _, EmptyString => false
  | String a needle', String b s' => Ascii.eqb a b && startsWith s' needle'
  end.

(** [String.prototype.includes]: some position of [s] starts with [needle]. *)
Fixpoint includes (s needle : string) : bool :=
  startsWith s needle ||
  match s with
  | EmptyString => false
  | String _ s' => includes s' needle
  end.

(** Truthiness of a string value: only the empty string is falsy. *)
Definition truthy (s : string) : bool := negb (s =? "").

(** [s] occurs inside [t]. *)
Definition Substring (s t : string) : Prop :=
  exists pre post, t = pre ++ s ++ post.

(** [s] occurs inside [t] up to the case of the letters [A]-[Z]. *)
Definition SubstringCI (s t : string) : Prop :=
  exists pre u post, t = pre ++ u ++ post /\ asciiLower u = asciiLower s.

(** A word of lowercase ASCII letters other than [i] and [k], the two
    ASCII letters that characters outside ASCII lower to. *)
Definition plainLetter (c : ascii) : bool :=
  inside 97 (byte c) 122 && negb (byte c =? 105)%N && negb (byte c =? 107)%N.

Fixpoint plainLetters (k : string) : bool :=
  match k with
  | EmptyString => true
  | String c k' => plainLetter c && plainLetters k'
  end.

Definition plainWord (k : string) : bool := negb (k =? "") && plainLetters k.

(** *** Shapes of characters, for the statements about them *)

Fixpoint allAscii (s : string) : bool :=
  match s with
  | EmptyString => true
  | String c s' => isAscii c && allAscii s'
  end.

Fixpoint noAscii (s : string) : bool :=
  match s with
  | EmptyString => true
  | String c s' => negb (isAscii c) && noAscii s'
  end.

(** What [chars] yields: one ASCII byte, or bytes outside ASCII only. *)
Definition wellShaped (ch : string) : bool :=
  match ch with
  | EmptyString => false
  | String a rest => if isAscii a then rest =? "" else noAscii rest
  end.

(** The characters of an ASCII string: its bytes. *)
Fixpoint singles (u : string) : list string :=
  match u with
  | EmptyString => []
  | String c u' => String c "" :: singles u'
  end.

(** A text in which no plain letter occurs, and that is not empty. *)
Fixpoint noPlain (o : string) : bool :=
  match o with
  | EmptyString => true
  | String c o' => negb (plainLetter c) && noPlain o'
  end.

Definition opaque (o : string) : bool := negb (o =? "") && noPlain o.

End JsString.

Import JsString.

(** ** Input normalizer *)

Definition normalizeInput (term : string) : string :=
  let lowerTerm := trim (toLowerCase term) in
  if includes lowerTerm "beach" then "beaches"
  else if includes lowerTerm "temple" then "temples"
  else if includes lowerTerm "country" then "countries"
  else lowerTerm.

(** ** Data model *)

Module Place.
(** A beach, a temple or a city.  [imageUrl] is [None] when the JSON record
    has no such member. *)
Record t : Type := mk {
  name : string;
  imageUrl : option string;
  description : string
}.
End Place.

Module Country.
Record t : Type := mk {
  name : string;
  cities : list Place.t
}.
End Country.

(** The value found under the [beaches] or [temples] key of the parsed JSON
    document: the member may be missing, [null], or an array of places. *)
Inductive Member : Type :=
| Absent
| Null
| Seq (items : list Place.t).

Record Dataset : Type := mkDataset {
  countries : list Country.t;
  beaches : Member;
  temples : Member
}.

(** [travelData[key]] for the two keys the search reads dynamically. *)
Definition member (d : Dataset) (key : string) : Member :=
  if key =? "beaches" then beaches d
  else if key =? "temples" then temples d
  else Absent.

(** [m || []]: an array, even an empty one, is truthy; a missing member and
    [null] are falsy. *)
Definition orEmpty (m : Member) : list Place.t :=
  match m with
  | Seq items => items
  | Absent | Null => []
  end.

(** ** Search filter: the body of [performSearch] between reading the input
    and rendering *)

Definition pushCities (results : list Place.t) (country : Country.t) : list Place.t :=
  fold_left
    (fun results city =>
       (results ++ [ Place.mk (Place.name city) (Place.imageUrl city) (Place.description city) ])%list)
    (Country.cities country) results.

Definition search (travelData : Dataset) (rawTerm : string) : list Place.t * string :=
  let normalizedTerm := normalizeInput rawTerm in
  if (normalizedTerm =? "beaches") || (normalizedTerm =? "temples") then
    (orEmpty (member travelData normalizedTerm), normalizedTerm)
  else if (normalizedTerm =? "countries") || negb (trim rawTerm =? "") then
    let countryTerm := trim (toLowerCase rawTerm) in
    let matchingCountries :=
      filter (fun country =>
                includes (toLowerCase (Country.name country)) countryTerm
                || (normalizedTerm =? "countries"))
             (countries travelData) in
    (fold_left pushCities matchingCountries [], "countries")
  else ([], "").


Definition displayItem (city : Place.t) : Place.t :=
  Place.mk (Place.name city) (Place.imageUrl city) (Place.description city).


(** ** Time annotator *)

(** What a property read on [timezoneMap] can give: nothing, one of the
    table's strings, or a member inherited from [Object.prototype]. *)
Inductive JsValue : Type :=
| undefined
| JsStr (s : string)
| JsObj (key : string).

Definition timezoneMap : list (string * string) :=
  [ ("Sydney, Australia", "Australia/Sydney");
    ("Melbourne, Australia", "Australia/Melbourne");
    ("Tokyo, Japan", "Asia/Tokyo");
    ("Kyoto, Japan", "Asia/Tokyo");
    ("Rio de Janeiro, Brazil", "America/Sao_Paulo");
    ("São Paulo, Brazil", "America/Sao_Paulo") ].

Definition objectPrototype : list string :=
  [ "constructor"; "__defineGetter__"; "__defineSetter__"; "hasOwnProperty";
    "__lookupGetter__"; "__lookupSetter__"; "isPrototypeOf";
    "propertyIsEnumerable"; "toString"; "valueOf"; "__proto__";
    "toLocaleString" ].

Fixpoint ownProperty (o : list (string * string)) (key : string) : option string :=
  match o with
  | [] => None
  | (k, v) :: o' => if k =? key then Some v else ownProperty o' key
  end.

(** [o[key]] on an object literal: own members first, then the prototype. *)
Definition getProperty (o : list (string * string)) (key : string) : JsValue :=
  match ownProperty o key with
  | Some v => JsStr v
  | None => if existsb (String.eqb key) objectPrototype then JsObj key else undefined
  end.

Definition falsy (v : JsValue) : bool :=
  match v with
  | undefined => true
  | JsStr s => s =? ""
  | JsObj _ => false
  end.

(** ** Page state *)

Record Style : Type := mkStyle {
  display : string;
  gridTemplateColumns : string;
  gap : string;
  marginTop : string
}.

(** The global [travelData], the value of [searchInput], the markup and the
    inline style of [resultsContainer], and the number of requests sent so
    far.  Both page elements are taken to exist: [performSearch] and the
    reset handler dereference them without a test.  [innerHTML] is the
    markup as the script assigned it; the parsing of that markup by the
    browser, and its serialisation when [+=] reads it back, are not part of
    the record. *)
Record Page : Type := mkPage {
  travelData : option Dataset;
  searchInput_value : string;
  innerHTML : string;
  style : Style;
  requests : nat
}.

Definition set_travelData (v : option Dataset) (p : Page) : Page :=
  mkPage v (searchInput_value p) (innerHTML p) (style p) (requests p).

Definition set_value (v : string) (p : Page) : Page :=
  mkPage (travelData p) v (innerHTML p) (style p) (requests p).

Definition set_innerHTML (v : string) (p : Page) : Page :=
  mkPage (travelData p) (searchInput_value p) v (style p) (requests p).

Definition set_style (v : Style) (p : Page) : Page :=
  mkPage (travelData p) (searchInput_value p) (innerHTML p) v (requests p).

Definition count_request (p : Page) : Page :=
  mkPage (travelData p) (searchInput_value p) (innerHTML p) (style p) (S (requests p)).

(** ** What the network can answer *)

Inductive JsonOutcome : Type :=
| JsonError (message : string)
| JsonData (data : Dataset).

Inductive FetchOutcome : Type :=
| NetworkError (message : string)
| Response (ok : bool) (status : nat) (body : JsonOutcome).

(** ** Markup *)

Definition dq : string := String (ascii_of_nat 34) "".

Definition decimal (n : nat) : string := NilEmpty.string_of_uint (Nat.to_uint n).

Definition noResultsHtml : string :=
"
            <div style=" ++ dq ++ "padding: 20px; text-align: center; color: #555; font-size: 1.1em; margin-top: 30px;" ++ dq ++ ">
                Sorry, no recommendations found for your search. Try searching for 'beach', 'temple', or a country name (e.g., 'Japan').
            </div>
        ".

Definition placeholderUrl : string :=
  "https://placehold.co/400x250/A0B9E8/333333?text=Travel+Destination".

Definition timeHtml (currentTime : string) : string :=
"<p style=" ++ dq ++ "font-size: 0.9em; font-weight: bold; color: #ff5722; margin-top: 10px;" ++ dq ++ ">Current Time: " ++ currentTime ++ "</p>".

Definition itemHtml (imageUrl : string) (item : Place.t) (timeDisplay : string) : string :=
"
            <div class=" ++ dq ++ "recommendation-card" ++ dq ++ " style=" ++ dq ++ "
                border: 1px solid #e0e0e0;
                border-radius: 12px;
                box-shadow: 0 8px 20px rgba(0, 0, 0, 0.1);
                overflow: hidden;
                background-color: #ffffff;
                transition: transform 0.3s;
            " ++ dq ++ " onmouseover=" ++ dq ++ "this.style.transform='translateY(-8px)'" ++ dq ++ " onmouseout=" ++ dq ++ "this.style.transform='translateY(0)'" ++ dq ++ ">
                
                <!-- Image Display -->
                <img src=" ++ dq ++ imageUrl ++ dq ++ " 
                     alt=" ++ dq ++ Place.name item ++ dq ++ " 
                     style=" ++ dq ++ "width: 100%; height: 200px; object-fit: cover;" ++ dq ++ "
                     onerror=" ++ dq ++ "this.onerror=null; this.src='https://placehold.co/400x250/F0F0F0/888888?text=No+Image';" ++ dq ++ ">
                
                <!-- Content -->
                <div style=" ++ dq ++ "padding: 20px;" ++ dq ++ ">
                    <h3 style=" ++ dq ++ "margin-top: 0; color: #007bff; font-weight: 700; font-size: 1.5em;" ++ dq ++ ">" ++ Place.name item ++ "</h3>
                    " ++ timeDisplay ++ "
                    <p style=" ++ dq ++ "color: #666; font-size: 1em; line-height: 1.4;" ++ dq ++ ">" ++ Place.description item ++ "</p>
                    <a href=" ++ dq ++ "#" ++ dq ++ " style=" ++ dq ++ "display: block; text-align: right; color: #ff5722; text-decoration: none; font-weight: 600; margin-top: 15px;" ++ dq ++ ">Book This Trip →</a>
                </div>
            </div>
        ".

Definition errorHtml (message : string) : string :=
"
                <div style=" ++ dq ++ "color: red; padding: 20px; text-align: center; background: #ffebeb; border-radius: 8px; margin-top: 30px;" ++ dq ++ ">
                    <p>Could not load travel data. Please ensure 'travel_recommendation_api.json' is correctly placed and accessible.</p>
                    <p>Details: " ++ message ++ "</p>
                </div>
            ".

Definition httpErrorMessage (status : nat) : string :=
  "HTTP error! Status: " ++ decimal status
  ++ ". Check if 'travel_recommendation_api.json' exists.".

(** ** The script *)

Section Script.

(** [fetch n] is what the [n]-th request for [travel_recommendation_api.json]
    comes back with. *)
Variable fetch : nat -> FetchOutcome.

(** [toLocaleTimeString tz] is the text
    [new Date().toLocaleTimeString('en-US', {timeZone: tz, ...})] evaluates
    to, or [None] when the call throws. *)
Variable toLocaleTimeString : JsValue -> option string.

Definition getCurrentTime (timezone : JsValue) : string :=
  if falsy timezone then ""
  else
    match toLocaleTimeString timezone with
    | Some formatted => formatted
    | None => ""
    end.

(** The time annotator of a place name: the table read followed by
    [getCurrentTime], as [displayRecommendations] chains them. *)
Definition currentTime (placeName : string) : string :=
  getCurrentTime (getProperty timezoneMap placeName).

Definition timeDisplay (category : string) (item : Place.t) : string :=
  let isCityResult := category =? "countries" in
  if isCityResult then
    let timezone := getProperty timezoneMap (Place.name item) in
    let currentTime := getCurrentTime timezone in
    if truthy currentTime then timeHtml currentTime else ""
  else "".

Definition imageUrlOf (item : Place.t) : string :=
  match Place.imageUrl item with
  | Some url =>
      if truthy url && negb (includes url "enter_your_image") then url
      else placeholderUrl
  | None => placeholderUrl
  end.

Definition card (category : string) (item : Place.t) : string :=
  itemHtml (imageUrlOf item) item (timeDisplay category item).

Definition gridStyle : Style :=
  mkStyle "grid" "repeat(auto-fit, minmax(300px, 1fr))" "30px" "40px".

Definition appendCard (category : string) (p : Page) (item : Place.t) : Page :=
  set_innerHTML (innerHTML p ++ card category item) p.

Definition displayRecommendations
    (results : list Place.t) (category : string) (p : Page) : Page :=
  let p := set_innerHTML "" p in
  if (length results =? 0)%nat then set_innerHTML noResultsHtml p
  else
    let p := set_style gridStyle p in
    fold_left (appendCard category) results p.

(** The markup of a result list: its cards, in order. *)
Definition cards (category : string) (results : list Place.t) : string :=
  fold_right (fun item html => card category item ++ html) "" results.

(** The [try] block of [fetchRecommendations]: the error caught, or the
    parsed data. *)
Definition tryFetch (response : FetchOutcome) : string + Dataset :=
  match response with
  | NetworkError message => inl message
  | Response ok status body =>
      if negb ok then inl (httpErrorMessage status)
      else
        match body with
        | JsonError message => inl message
        | JsonData data => inr data
        end
  end.

(** The result is [None] for [null].  In the [catch] block the test
    [if (resultsContainer)] holds, the element being there. *)
Definition fetchRecommendations (p : Page) : option Dataset * Page :=
  let response := fetch (requests p) in
  let p := count_request p in
  match tryFetch response with
  | inr data => (Some data, set_travelData (Some data) p)
  | inl message => (None, set_innerHTML (errorHtml message) p)
  end.

(** Steps 2 and 3 of [performSearch], once the data is at hand. *)
Definition searchAndDisplay (data : Dataset) (p : Page) : Page :=
  let rawTerm := searchInput_value p in
  let '(results, category) := search data rawTerm in
  displayRecommendations results category p.

Definition performSearch (p : Page) : Page :=
  match travelData p with
  | Some data => searchAndDisplay data p
  | None =>
      let '(loaded, p) := fetchRecommendations p in
      let p := set_travelData loaded p in
      match loaded with
      | None => p
      | Some data => searchAndDisplay data p
      end
  end.

(** The click handler of the reset button. *)
Definition resetClick (p : Page) : Page :=
  let p := set_value "" p in
  let p := set_innerHTML "" p in
  let p := set_style (mkStyle "block" (gridTemplateColumns (style p))
                              (gap (style p)) (marginTop (style p))) p in
  set_style (mkStyle (display (style p)) (gridTemplateColumns (style p))
                     (gap (style p)) "0") p.

(** The [DOMContentLoaded] handler: the initial load. *)
Definition domContentLoaded (p : Page) : Page := snd (fetchRecommendations p).

(** What the user can do once the page is up. *)
Inductive Event : Type :=
| TypeInput (text : string)
| ClickSearch
| ClickReset.

Definition step (p : Page) (e : Event) : Page :=
  match e with
  | TypeInput text => set_value text p
  | ClickSearch => performSearch p
  | ClickReset => resetClick p
  end.

Definition run (events : list Event) (p : Page) : Page := fold_left step events p.

End Script.

(** Why a load fails, and with which error message: the request itself is
    rejected, the response status is not a success, or the body does not
    parse. *)
Inductive LoadFails : FetchOutcome -> string -> Prop :=
| fails_network (message : string) :
    LoadFails (NetworkError message) message
| fails_status (status : nat) (body : JsonOutcome) :
    LoadFails (Response false status body) (httpErrorMessage status)
| fails_parse (status : nat) (message : string) :
    LoadFails (Response true status (JsonError message)) message.

(** ** A sample page *)

Module Sample.

Definition tokyo : Place.t :=
  Place.mk "Tokyo, Japan" (Some "enter_your_image_for_tokyo.jpg")
           "A bustling metropolis blending tradition and technology.".

Definition kyoto : Place.t :=
  Place.mk "Kyoto, Japan" (Some "kyoto.jpg")
           "Known for its historic temples, gardens, and traditional tea houses.".

Definition rio : Place.t :=
  Place.mk "Rio de Janeiro, Brazil" None
           "A lively city known for its stunning beaches.".

Definition boraBora : Place.t :=
  Place.mk "Bora Bora, French Polynesia" (Some "bora-bora.jpg")
           "An island known for its stunning turquoise waters.".

Definition copacabana : Place.t :=
  Place.mk "Copacabana Beach, Brazil" (Some "copacabana.jpg")
           "A famous beach in Rio de Janeiro.".

Definition angkorWat : Place.t :=
  Place.mk "Angkor Wat, Cambodia" (Some "angkor-wat.jpg")
           "A UNESCO World Heritage site and the largest religious monument in the world.".

Definition japan : Country.t := Country.mk "Japan" [tokyo; kyoto].
Definition brazil : Country.t := Country.mk "Brazil" [rio].

Definition data : Dataset :=
  mkDataset [japan; brazil] (Seq [boraBora; copacabana]) (Seq [angkorWat]).

(** The same document without its [beaches] member and with [temples: null]. *)
Definition sparse : Dataset := mkDataset [japan; brazil] Absent Null.

Definition blank : Page := mkPage None "" "" (mkStyle "" "" "" "") 0.

(** A server that always answers with the document. *)
Definition online (n : nat) : FetchOutcome := Response true 200 (JsonData data).

(** A server that does not have the file. *)
Definition offline (n : nat) : FetchOutcome :=
  Response false 404 (JsonError "Unexpected token < in JSON at position 0").

(** A clock that knows the two zones of the sample and rejects the rest. *)
Definition clock (timezone : JsValue) : option string :=
  match timezone with
  | JsStr tz =>
      if tz =? "Asia/Tokyo" then Some "Nov 2, 2026, 4:07:09 PM"
      else if tz =? "America/Sao_Paulo" then Some "Nov 2, 2026, 4:07:09 AM"
      else None
  | _ => None
  end.


(** NO-BREAK SPACE and LINE SEPARATOR. *)
Definition nbsp : string := String (ascii_of_nat 194) (String (ascii_of_nat 160) "").

Definition lineSeparator : string :=
  String (ascii_of_nat 226) (String (ascii_of_nat 128) (String (ascii_of_nat 168) "")).

Definition blanks : string :=
  " " ++ nbsp ++ String (ascii_of_nat 9) lineSeparator.




(** The page once the initial load has come back. *)
Definition loaded : Page := domContentLoaded online blank.

(** A user session on the loaded page. *)
Definition session : list Event :=
  [ TypeInput "japan"; ClickSearch; ClickReset; TypeInput " Beach "; ClickSearch ].

End Sample.

(** ** Auxiliary notions for the statements *)

(** How many times the search button is clicked in a session. *)
Definition searches (events : list Event) : nat :=
  length (filter (fun e => match e with ClickSearch => true | _ => false end) events).

(** The markup a search leaves in the results container. *)
Definition resultsHtml (clock : JsValue -> option string)
    (d : Dataset) (rawTerm : string) : string :=
  match fst (search d rawTerm) with
  | [] => noResultsHtml
  | results => cards clock (snd (search d rawTerm)) results
  end.

(** A server that fails the first request and answers the later ones. *)
Definition flaky (n : nat) : FetchOutcome :=
  match n with
  | O => Sample.offline n
  | S _ => Sample.online n
  end.

(** * Verification *)

(** ** Facts about the string methods *)

Section StringFacts.

Lemma app_empty_r (s : string) : s ++ "" = s.
Proof. induction s as [|c s IH]; simpl; [reflexivity | now rewrite IH]. Qed.

Lemma app_assoc' (a b c : string) : (a ++ b) ++ c = a ++ (b ++ c).
Proof. induction a as [|x a IH]; simpl; [reflexivity | now rewrite IH]. Qed.

Lemma startsWith_iff (s needle : string) :
  startsWith s needle = true <-> exists post, s = needle ++ post.
Proof.
  revert s; induction needle as [|a needle IH]; intros s; simpl.
  - split; [intros _; now exists s | reflexivity].
  - destruct s as [|b s]; simpl.
    + split; [discriminate | intros [post H]; discriminate].
    + rewrite andb_true_iff, Ascii.eqb_eq, IH. split.
      * intros [-> [post ->]]. now exists post.
      * intros [post H]. injection H as -> ->. split; [reflexivity | now exists post].
Qed.

Lemma includes_iff (s needle : string) :
  includes s needle = true <-> Substring needle s.
Proof.
  unfold Substring. induction s as [|c s IH].
  - simpl. rewrite orb_false_r, startsWith_iff. split.
    + intros [post H]. now exists "", post.
    + intros [pre [post H]]. destruct pre; simpl in H; [now exists post | discriminate].
  - cbn [includes]. rewrite orb_true_iff, startsWith_iff, IH. split.
    + intros [[post H] | [pre [post H]]].
      * now exists "", post.
      * exists (String c pre), post. simpl. now rewrite H.
    + intros [pre [post H]]. destruct pre as [|x pre]; simpl in H.
      * left. now exists post.
      * right. injection H as _ H. now exists pre, post.
Qed.

Lemma includes_false_iff (s needle : string) :
  includes s needle = false <-> ~ Substring needle s.
Proof.
  rewrite <- includes_iff. destruct (includes s needle); split; intros H;
    try reflexivity; try discriminate; try (intros H'; discriminate).
  now elim H.
Qed.

Lemma Substring_here (s post : string) : Substring s (s ++ post).
Proof. now exists "", post. Qed.

Lemma Substring_app_l (s pre t : string) : Substring s t -> Substring s (pre ++ t).
Proof.
  intros [a [b ->]]. exists (pre ++ a), b. now rewrite app_assoc'.
Qed.

Lemma Substring_app_r (s t post : string) : Substring s t -> Substring s (t ++ post).
Proof.
  intros [a [b ->]]. exists a, (b ++ post). now rewrite !app_assoc'.
Qed.

Lemma Substring_CI (k t : string) : Substring k t -> SubstringCI k t.
Proof. intros [pre [post ->]]. now exists pre, k, post. Qed.

(** *** Characters *)

Lemma join_app (xs ys : list string) : join (xs ++ ys) = join xs ++ join ys.
Proof.
  induction xs as [|x xs IH]; [reflexivity |].
  cbn [List.app join fold_right]. fold (join (xs ++ ys)). fold (join xs).
  now rewrite IH, app_assoc'.
Qed.

Lemma chars_nil (s : string) : chars s = [] -> s = "".
Proof.
  destruct s as [|c s]; [reflexivity |]. cbn [chars].
  destruct (chars s); [discriminate |].
  now destruct (negb (isAscii c) && startsContinuation s).
Qed.

Lemma chars_join (s : string) : join (chars s) = s.
Proof.
  induction s as [|c s IH]; [reflexivity |]. cbn [chars].
  destruct (chars s) as [|next more] eqn:E.
  - apply chars_nil in E. now subst.
  - unfold join in *. cbn [fold_right] in *.
    destruct (negb (isAscii c) && startsContinuation s); cbn [fold_right append];
      now rewrite IH.
Qed.

Lemma chars_head (c : ascii) (s : string) :
  exists rest more, chars (String c s) = String c rest :: more.
Proof.
  cbn [chars]. destruct (chars s) as [|next more]; [now exists "", [] |].
  destruct (negb (isAscii c) && startsContinuation s); eauto.
Qed.

Lemma chars_ascii_cons (a : ascii) (rest : string) :
  isAscii a = true -> chars (String a rest) = String a "" :: chars rest.
Proof.
  intros H. cbn [chars]. rewrite H. now destruct (chars rest).
Qed.

Lemma chars_app_boundary (pre : string) (a : ascii) (rest : string) :
  isContinuation a = false ->
  chars (pre ++ String a rest) = (chars pre ++ chars (String a rest))%list.
Proof.
  intros Ha. destruct (chars_head a rest) as (r & m & Hhead).
  induction pre as [|c pre IH]; [reflexivity |].
  change (String c pre ++ String a rest) with (String c (pre ++ String a rest)).
  change (chars (String c (pre ++ String a rest)))
    with (match chars (pre ++ String a rest) with
          | next :: more =>
              if negb (isAscii c) && startsContinuation (pre ++ String a rest)
              then String c next :: more
              else String c "" :: next :: more
          | [] => [String c ""]
          end).
  rewrite IH. destruct pre as [|c' pre'].
  - rewrite Hhead. cbn [append chars List.app startsContinuation].
    now rewrite Ha, andb_false_r.
  - destruct (chars_head c' pre') as (r' & m' & E). rewrite E.
    change (chars (String c (String c' pre')))
      with (match chars (String c' pre') with
            | next :: more =>
                if negb (isAscii c) && startsContinuation (String c' pre')
                then String c next :: more
                else String c "" :: next :: more
            | [] => [String c ""]
            end).
    rewrite E. cbn [append startsContinuation List.app].
    now destruct (negb (isAscii c) && isContinuation c').
Qed.

Lemma ascii_not_continuation (a : ascii) : isAscii a = true -> isContinuation a = false.
Proof.
  unfold isAscii, isContinuation. intros H. apply N.ltb_lt in H.
  apply andb_false_iff. left. apply N.leb_gt. exact H.
Qed.

Lemma continuation_not_ascii (a : ascii) : isContinuation a = true -> isAscii a = false.
Proof.
  intros H. destruct (isAscii a) eqn:E; [| reflexivity].
  apply ascii_not_continuation in E. congruence.
Qed.

End StringFacts.

Section CharFacts.

Lemma noAscii_of_wellShaped (c : ascii) (rest : string) :
  isAscii c = false -> wellShaped (String c rest) = true -> noAscii (String c rest) = true.
Proof. intros H W. cbn [wellShaped noAscii] in *. now rewrite H in *. Qed.

Lemma chars_wellShaped (s : string) : Forall (fun ch => wellShaped ch = true) (chars s).
Proof.
  induction s as [|c s IH]; [constructor |].
  cbn [chars]. destruct (chars s) as [|next more] eqn:E.
  - constructor; [| constructor]. cbn. now destruct (isAscii c).
  - inversion IH as [|x l Hnext Hmore]; subst.
    destruct (negb (isAscii c) && startsContinuation s) eqn:C.
    + apply andb_true_iff in C. destruct C as [Hc Hs].
      apply negb_true_iff in Hc.
      constructor; [| exact Hmore].
      destruct s as [|c0 s0]; [discriminate |].
      destruct (chars_head c0 s0) as (r & m & E'). rewrite E in E'.
      injection E' as -> ->. cbn [startsContinuation] in Hs.
      apply continuation_not_ascii in Hs.
      cbn [wellShaped]. rewrite Hc.
      now apply noAscii_of_wellShaped.
    + constructor; [| exact IH].
      cbn. now destruct (isAscii c).
Qed.

Lemma wellShaped_nonempty (ch : string) : wellShaped ch = true -> ch <> "".
Proof. destruct ch; [discriminate | discriminate]. Qed.

Lemma join_singles (u : string) : join (singles u) = u.
Proof.
  induction u as [|c u IH]; [reflexivity |].
  cbn [singles join fold_right]. fold (join (singles u)). now rewrite IH.
Qed.

Lemma chars_singles (u rest : string) :
  allAscii u = true -> chars (u ++ rest) = (singles u ++ chars rest)%list.
Proof.
  induction u as [|c u IH]; [reflexivity |].
  cbn [allAscii]. rewrite andb_true_iff. intros [Hc Hu].
  cbn [append singles List.app]. now rewrite (chars_ascii_cons c _ Hc), IH.
Qed.

(** A keyword of ASCII letters keeps its own characters wherever it stands. *)
Lemma chars_around (pre u post : string) :
  allAscii u = true -> u <> "" ->
  chars (pre ++ u ++ post) = (chars pre ++ singles u ++ chars post)%list.
Proof.
  intros Hu Hne. destruct u as [|a u]; [contradiction |].
  cbn [allAscii] in Hu. apply andb_true_iff in Hu. destruct Hu as [Ha Hu].
  cbn [append]. rewrite chars_app_boundary by now apply ascii_not_continuation.
  rewrite (chars_ascii_cons a _ Ha), (chars_singles u post Hu). reflexivity.
Qed.

(** *** Letters *)

Lemma plainLetter_facts (c : ascii) :
  plainLetter c = true ->
  isAscii c = true /\ lowerAscii c = c /\ isWhiteSpace (String c "") = false
  /\ (String c "" =? capitalSigma) = false.
Proof.
  destruct c as [[] [] [] [] [] [] [] []]; vm_compute; intros H;
    try discriminate; repeat split.
Qed.

Lemma lowerAscii_plain (c : ascii) :
  plainLetter (lowerAscii c) = true -> isAscii c = true.
Proof.
  destruct c as [[] [] [] [] [] [] [] []]; vm_compute; intros H;
    try discriminate; reflexivity.
Qed.

Lemma plainLetters_ascii (k : string) : plainLetters k = true -> allAscii k = true.
Proof.
  induction k as [|c k IH]; [reflexivity |]. cbn [plainLetters allAscii].
  rewrite !andb_true_iff. intros [Hc Hk]. split; [| now apply IH].
  now apply plainLetter_facts.
Qed.

Lemma plainLetters_lower (k : string) : plainLetters k = true -> asciiLower k = k.
Proof.
  induction k as [|c k IH]; [reflexivity |]. cbn [plainLetters asciiLower].
  rewrite andb_true_iff. intros [Hc Hk].
  destruct (plainLetter_facts c Hc) as (_ & -> & _). now rewrite IH.
Qed.

Lemma asciiLower_plain_ascii (u : string) :
  plainLetters (asciiLower u) = true -> allAscii u = true.
Proof.
  induction u as [|c u IH]; [reflexivity |]. cbn [asciiLower plainLetters allAscii].
  rewrite !andb_true_iff. intros [Hc Hu]. split; [| now apply IH].
  now apply lowerAscii_plain.
Qed.

Lemma plainWord_facts (k : string) :
  plainWord k = true -> k <> "" /\ plainLetters k = true.
Proof.
  unfold plainWord. rewrite andb_true_iff, negb_true_iff, String.eqb_neq. tauto.
Qed.

Lemma asciiLower_empty (u : string) : asciiLower u = "" -> u = "".
Proof. now destruct u. Qed.

(** *** Lowercasing *)

Lemma ascii_single_sigma (a : ascii) : isAscii a = true -> (String a "" =? capitalSigma) = false.
Proof.
  intros _. unfold capitalSigma. cbn. apply andb_false_r.
Qed.

Lemma lowerChars_singles (u : string) (rest : list string) (b : bool) :
  allAscii u = true ->
  exists b', lowerChars b (singles u ++ rest)
             = (singles (asciiLower u) ++ lowerChars b' rest)%list.
Proof.
  revert b; induction u as [|c u IH]; intros b; [now exists b |].
  cbn [allAscii]. rewrite andb_true_iff. intros [Hc Hu].
  cbn [singles asciiLower List.app lowerChars].
  rewrite (ascii_single_sigma c Hc).
  destruct (IH (if isCaseIgnorable (String c "") then b else isCased (String c "")) Hu)
    as [b' ->].
  exists b'. unfold lowerChar. now rewrite Hc.
Qed.

Lemma lowerChars_app (xs ys : list string) (b : bool) :
  exists zs b', lowerChars b (xs ++ ys) = (zs ++ lowerChars b' ys)%list.
Proof.
  revert b; induction xs as [|x xs IH]; intros b; [now exists [], b |].
  cbn [List.app lowerChars].
  destruct (IH (if isCaseIgnorable x then b else isCased x)) as (zs & b' & ->).
  now eexists (_ :: zs), b'.
Qed.

Lemma lowered_keeps (k raw : string) :
  plainWord k = true -> SubstringCI k raw -> Substring k (toLowerCase raw).
Proof.
  intros Hk (pre & u & post & -> & Hu).
  destruct (plainWord_facts k Hk) as [Hne Hpl].
  rewrite (plainLetters_lower k Hpl) in Hu.
  assert (Hascii : allAscii u = true).
  { apply asciiLower_plain_ascii. now rewrite Hu. }
  assert (Hune : u <> "").
  { intros ->. cbn in Hu. now apply Hne. }
  unfold toLowerCase. rewrite (chars_around pre u post Hascii Hune).
  destruct (lowerChars_app (chars pre) (singles u ++ chars post) false)
    as (zs & b' & ->).
  destruct (lowerChars_singles u (chars post) b' Hascii) as (b'' & ->).
  rewrite !join_app, join_singles, Hu.
  now exists (join zs), (join (lowerChars b'' (chars post))).
Qed.

(** *** Trimming *)

Lemma trimStartChars_keeps (xs ws ys : list string) :
  ws <> [] -> Forall (fun ch => isWhiteSpace ch = false) ws ->
  exists xs', trimStartChars (xs ++ ws ++ ys) = (xs' ++ ws ++ ys)%list.
Proof.
  intros Hne Hws. induction xs as [|x xs IH].
  - exists []. destruct ws as [|w ws]; [contradiction |].
    inversion Hws; subst. cbn [List.app trimStartChars]. now rewrite H1.
  - cbn [List.app trimStartChars]. destruct (isWhiteSpace x); [exact IH |].
    now exists (x :: xs).
Qed.

Lemma trimEndChars_solid (ws ys : list string) :
  ws <> [] -> Forall (fun ch => isWhiteSpace ch = false) ws ->
  exists ys', trimEndChars (ws ++ ys) = (ws ++ ys')%list.
Proof.
  intros Hne Hws. induction ws as [|w ws IH]; [contradiction |].
  inversion Hws as [|? ? Hw Hrest]; subst.
  destruct ws as [|w2 ws].
  - cbn [List.app trimEndChars]. rewrite Hw.
    destruct (trimEndChars ys) as [|k kept]; [now exists [] | now exists (k :: kept)].
  - destruct (IH ltac:(discriminate) Hrest) as [ys' E].
    exists ys'. change ((w :: w2 :: ws) ++ ys)%list with (w :: ((w2 :: ws) ++ ys))%list.
    cbn [trimEndChars]. rewrite E. reflexivity.
Qed.

Lemma trimEndChars_app (xs ys : list string) :
  trimEndChars ys <> [] -> trimEndChars (xs ++ ys) = (xs ++ trimEndChars ys)%list.
Proof.
  intros H. induction xs as [|x xs IH]; [reflexivity |].
  cbn [List.app trimEndChars]. rewrite IH.
  destruct (xs ++ trimEndChars ys)%list eqn:E; [| reflexivity].
  apply app_eq_nil in E. destruct E as [_ E]. contradiction.
Qed.

Lemma singles_solid (k : string) :
  plainLetters k = true -> Forall (fun ch => isWhiteSpace ch = false) (singles k).
Proof.
  induction k as [|c k IH]; [constructor |]. cbn [plainLetters singles].
  rewrite andb_true_iff. intros [Hc Hk]. constructor; [| now apply IH].
  now apply plainLetter_facts.
Qed.

Lemma singles_nonempty (k : string) : k <> "" -> singles k <> [].
Proof. destruct k; [contradiction | discriminate]. Qed.

Lemma trim_keeps (k t : string) :
  plainWord k = true -> Substring k t -> Substring k (trim t).
Proof.
  intros Hk [pre [post ->]].
  destruct (plainWord_facts k Hk) as [Hne Hpl].
  unfold trim.
  rewrite (chars_around pre k post (plainLetters_ascii k Hpl) Hne).
  destruct (trimStartChars_keeps (chars pre) (singles k) (chars post)
              (singles_nonempty k Hne) (singles_solid k Hpl)) as [xs' ->].
  destruct (trimEndChars_solid (singles k) (chars post)
              (singles_nonempty k Hne) (singles_solid k Hpl)) as [ys' E].
  rewrite trimEndChars_app.
  - rewrite E, !join_app, join_singles. now exists (join xs'), (join ys').
  - rewrite E. destruct (singles k) eqn:S; [| discriminate].
    now apply singles_nonempty in S.
Qed.

Lemma trimStartChars_suffix (cs : list string) :
  exists pre, cs = (pre ++ trimStartChars cs)%list.
Proof.
  induction cs as [|c cs [pre IH]]; [now exists [] |].
  cbn [trimStartChars]. destruct (isWhiteSpace c).
  - exists (c :: pre). cbn. now rewrite <- IH.
  - now exists [].
Qed.

Lemma trimEndChars_prefix (cs : list string) :
  exists post, cs = (trimEndChars cs ++ post)%list.
Proof.
  induction cs as [|c cs [post IH]]; [now exists [] |].
  cbn [trimEndChars]. destruct (trimEndChars cs) as [|k kept] eqn:E.
  - destruct (isWhiteSpace c).
    + now exists (c :: cs).
    + exists post. cbn. now rewrite IH at 1.
  - exists post. cbn. now rewrite IH at 1.
Qed.

Lemma trim_inside (k s : string) : Substring k (trim s) -> Substring k s.
Proof.
  unfold trim. intros [a [b H]].
  destruct (trimStartChars_suffix (chars s)) as [pre Hs].
  destruct (trimEndChars_prefix (trimStartChars (chars s))) as [post Ht].
  rewrite <- (chars_join s), Hs, Ht, !join_app, H.
  exists (join pre ++ a), (b ++ join post). now rewrite !app_assoc'.
Qed.

End CharFacts.

Section CaseFacts.

Lemma app_split (A X O R : string) :
  A ++ X = O ++ R ->
  (exists A', A = O ++ A' /\ R = A' ++ X)
  \/ (exists c O', O = A ++ String c O' /\ X = String c O' ++ R).
Proof.
  revert O; induction A as [|a A IH]; intros O H.
  - destruct O as [|c O']; [left; now exists "" | right; now exists c, O'].
  - destruct O as [|o O']; [left; now exists (String a A) |].
    cbn in H. injection H as -> H.
    destruct (IH O' H) as [(A' & -> & ->) | (c & O'' & -> & ->)].
    + left. now exists A'.
    + right. now exists c, O''.
Qed.

Lemma not_ascii_not_plain (c : ascii) : isAscii c = false -> plainLetter c = false.
Proof.
  intros H. destruct (plainLetter c) eqn:E; [| reflexivity].
  apply plainLetter_facts in E. destruct E as [E _]. congruence.
Qed.

Lemma noAscii_noPlain (s : string) : noAscii s = true -> noPlain s = true.
Proof.
  induction s as [|c s IH]; [reflexivity |]. cbn [noAscii noPlain].
  rewrite !andb_true_iff, !negb_true_iff. intros [Hc Hs].
  split; [now apply not_ascii_not_plain | now apply IH].
Qed.

Lemma assoc_In (n : N) (table : list (N * string)) (v : string) :
  assoc n table = Some v -> In (n, v) table.
Proof.
  induction table as [|[k w] table IH]; [discriminate |]. cbn [assoc].
  destruct (N.eqb_spec k n) as [-> | _].
  - intros H. injection H as ->. now left.
  - intros H. right. now apply IH.
Qed.

Lemma lowerTable_opaque :
  forallb (fun kv => opaque (snd kv)) lowerTable = true.
Proof. vm_compute. reflexivity. Qed.

Lemma lowerTable_not_white :
  forallb (fun kv => negb (inRanges (fst kv) whiteSpaceRanges)) lowerTable = true.
Proof. vm_compute. reflexivity. Qed.

(** What a character gives when lowered, wherever it stands: an ASCII
    byte gives its ASCII lowercase; any other character gives a text that is
    not empty and holds no plain letter. *)
Lemma lowered_char (ch : string) (sigma : string) :
  wellShaped ch = true -> sigma = smallSigma \/ sigma = finalSigma ->
  let out := if ch =? capitalSigma then sigma else lowerChar ch in
  (exists a, isAscii a = true /\ ch = String a "" /\ out = String (lowerAscii a) "")
  \/ opaque out = true.
Proof.
  intros W Hs out. destruct ch as [|a r]; [discriminate |].
  cbn [wellShaped] in W. destruct (isAscii a) eqn:Ha.
  - apply String.eqb_eq in W. subst r. left. exists a.
    unfold out. rewrite (ascii_single_sigma a Ha). unfold lowerChar. now rewrite Ha.
  - right. unfold out. destruct (String a r =? capitalSigma).
    + destruct Hs as [-> | ->]; reflexivity.
    + assert (Hself : opaque (String a r) = true).
      { unfold opaque. cbn [String.eqb negb andb].
        apply noAscii_noPlain. cbn [noAscii]. now rewrite Ha, W. }
      unfold lowerChar. destruct r as [|b r]; [now rewrite Ha |].
      destruct (assoc (codePoint (String a (String b r))) lowerTable) as [low |] eqn:E;
        [| exact Hself].
      apply assoc_In in E.
      pose proof lowerTable_opaque as T. rewrite forallb_forall in T.
      exact (T _ E).
Qed.

Lemma opaque_head (o : string) :
  opaque o = true -> exists c o', o = String c o' /\ plainLetter c = false /\ noPlain o' = true.
Proof.
  unfold opaque. destruct o as [|c o']; [discriminate |].
  cbn [String.eqb negb andb noPlain]. rewrite andb_true_iff, negb_true_iff.
  intros [Hc Ho]. now exists c, o'.
Qed.

Section Reflect.

Variable k : string.

Lemma prefix_reflect :
  forall (k' : string) (cs : list string) (b : bool) (B : string),
    plainLetters k' = true ->
    Forall (fun ch => wellShaped ch = true) cs ->
    join (lowerChars b cs) = k' ++ B ->
    exists u cs2, cs = (singles u ++ cs2)%list /\ asciiLower u = k'.
Proof.
  induction k' as [|x k' IH]; intros cs b B Hk W H.
  - now exists "", cs.
  - cbn [plainLetters] in Hk. apply andb_true_iff in Hk. destruct Hk as [Hx Hk].
    destruct cs as [|ch rest]; [discriminate |].
    inversion W as [|? ? Wch Wrest]; subst.
    cbn [lowerChars join fold_right] in H.
    match type of H with
    | (if _ then ?s else _) ++ _ = _ =>
        destruct (lowered_char ch s Wch) as [(a & Ha & -> & E) | Hop]
    end.
    { destruct (b && negb (beforeCased rest)); [now right | now left]. }
    + rewrite E in H. cbn [append] in H. injection H as Hl H.
      destruct (IH rest _ B Hk Wrest H) as (u & cs2 & -> & Hu).
      exists (String a u), cs2. cbn [singles asciiLower List.app].
      now rewrite Hl, Hu.
    + destruct (opaque_head _ Hop) as (c & o' & Eo & Hc & _).
      rewrite Eo in H. cbn [append] in H. injection H as -> _. congruence.
Qed.

Hypothesis plain : plainWord k = true.

Lemma lowered_reflect :
  forall (cs : list string) (b : bool) (o A B : string),
    noPlain o = true ->
    Forall (fun ch => wellShaped ch = true) cs ->
    o ++ join (lowerChars b cs) = A ++ k ++ B ->
    exists cs1 u cs2, cs = (cs1 ++ singles u ++ cs2)%list /\ asciiLower u = k.
Proof.
  destruct (plainWord_facts k plain) as [Hne Hpl].
  destruct k as [|x k'] eqn:Ek; [contradiction |].
  cbn [plainLetters] in Hpl. apply andb_true_iff in Hpl. destruct Hpl as [Hx Hk'].
  induction cs as [|ch rest IHcs]; intros b o; induction o as [|c o IHo];
    intros A B Ho W H.
  - destruct A; discriminate.
  - cbn [noPlain] in Ho. apply andb_true_iff in Ho. destruct Ho as [Hc Ho].
    apply negb_true_iff in Hc.
    destruct A as [|a0 A]; cbn [append] in H; injection H as -> H.
    + congruence.
    + exact (IHo A B Ho W H).
  - inversion W as [|? ? Wch Wrest]; subst.
    cbn [append] in H. cbn [lowerChars join fold_right] in H.
    match type of H with
    | (if _ then ?s else _) ++ _ = _ =>
        destruct (lowered_char ch s Wch) as [(a & Ha & -> & E) | Hop]
    end.
    { destruct (b && negb (beforeCased rest)); [now right | now left]. }
    + destruct A as [|a0 A].
      * destruct (prefix_reflect (String x k') (String a "" :: rest) b B) as (u & cs2 & E' & Hu).
        { cbn [plainLetters]. now rewrite Hx, Hk'. }
        { exact W. }
        { cbn [lowerChars join fold_right]. exact H. }
        exists [], u, cs2. now split.
      * rewrite E in H. cbn [append] in H. injection H as _ H.
        destruct (IHcs _ "" A B eq_refl Wrest H) as (cs1 & u & cs2 & -> & Hu).
        now exists (String a "" :: cs1), u, cs2.
    + destruct (opaque_head _ Hop) as (c & o' & Eo & Hc & Ho').
      rewrite Eo in H.
      assert (Hn : noPlain (String c o') = true).
      { cbn [noPlain]. now rewrite Hc, Ho'. }
      destruct (IHcs _ (String c o') A B Hn Wrest H) as (cs1 & u & cs2 & -> & Hu).
      now exists (ch :: cs1), u, cs2.
  - cbn [noPlain] in Ho. apply andb_true_iff in Ho. destruct Ho as [Hc Ho].
    apply negb_true_iff in Hc.
    destruct A as [|a0 A]; cbn [append] in H; injection H as -> H.
    + congruence.
    + exact (IHo A B Ho W H).
Qed.

End Reflect.

Lemma lowered_reflects (k raw : string) :
  plainWord k = true -> Substring k (toLowerCase raw) -> SubstringCI k raw.
Proof.
  intros Hk [A [B H]]. unfold toLowerCase in H.
  destruct (lowered_reflect k Hk (chars raw) false "" A B eq_refl
              (chars_wellShaped raw) H) as (cs1 & u & cs2 & E & Hu).
  exists (join cs1), u, (join cs2). split.
  - now rewrite <- (chars_join raw), E, !join_app, join_singles.
  - destruct (plainWord_facts k Hk) as [_ Hpl].
    now rewrite (plainLetters_lower k Hpl).
Qed.

(** *** Blank strings *)

Lemma white_ascii (a : ascii) :
  isWhiteSpace (String a "") = true -> lowerAscii a = a.
Proof.
  destruct a as [[] [] [] [] [] [] [] []]; vm_compute; intros H;
    try discriminate; reflexivity.
Qed.

Lemma white_lower (ch : string) :
  isWhiteSpace ch = true -> (ch =? capitalSigma) = false /\ lowerChar ch = ch.
Proof.
  intros H. split.
  - destruct (String.eqb_spec ch capitalSigma) as [-> | _]; [| reflexivity].
    vm_compute in H. discriminate.
  - destruct ch as [|a [|b r]].
    + vm_compute in H. discriminate.
    + unfold lowerChar. destruct (isAscii a); [| reflexivity].
      now rewrite (white_ascii a H).
    + unfold lowerChar.
      destruct (assoc (codePoint (String a (String b r))) lowerTable) as [low |] eqn:E;
        [| reflexivity].
      apply assoc_In in E.
      pose proof lowerTable_not_white as T. rewrite forallb_forall in T.
      specialize (T _ E). cbn [fst] in T.
      unfold isWhiteSpace in H. rewrite H in T. discriminate.
Qed.

Lemma lowerChars_blank (cs : list string) (b : bool) :
  forallb isWhiteSpace cs = true -> lowerChars b cs = cs.
Proof.
  revert b; induction cs as [|ch cs IH]; intros b; [reflexivity |].
  cbn [forallb lowerChars]. rewrite andb_true_iff. intros [Hc Hcs].
  destruct (white_lower ch Hc) as [-> ->]. now rewrite IH.
Qed.

Lemma toLowerCase_blank (s : string) : isBlank s = true -> toLowerCase s = s.
Proof.
  intros H. unfold toLowerCase. rewrite lowerChars_blank by exact H.
  apply chars_join.
Qed.

Lemma trimStartChars_blank (cs : list string) :
  forallb isWhiteSpace cs = true <-> trimStartChars cs = [].
Proof.
  induction cs as [|c cs IH]; [now split |].
  cbn [forallb trimStartChars]. destruct (isWhiteSpace c); cbn [andb].
  - exact IH.
  - split; discriminate.
Qed.

Lemma trim_blank (s : string) : isBlank s = true -> trim s = "".
Proof.
  intros H. unfold trim.
  now rewrite (proj1 (trimStartChars_blank (chars s)) H).
Qed.

Lemma join_nil (cs : list string) :
  Forall (fun ch => wellShaped ch = true) cs -> join cs = "" -> cs = [].
Proof.
  destruct cs as [|c cs]; [reflexivity |]. intros W H.
  inversion W as [|? ? Wc _]; subst.
  destruct c; [discriminate | discriminate].
Qed.

Lemma trimStartChars_head (cs : list string) (x : string) (r : list string) :
  trimStartChars cs = x :: r -> isWhiteSpace x = false.
Proof.
  induction cs as [|c cs IH]; [discriminate |]. cbn [trimStartChars].
  destruct (isWhiteSpace c) eqn:E; [exact IH |].
  intros H. now injection H as <- _.
Qed.

Lemma trimEndChars_nil (cs : list string) :
  trimEndChars cs = [] -> forallb isWhiteSpace cs = true.
Proof.
  induction cs as [|c cs IH]; [reflexivity |]. cbn [trimEndChars forallb].
  destruct (trimEndChars cs); [| discriminate].
  destruct (isWhiteSpace c); [intros _; now apply IH | discriminate].
Qed.

Lemma trim_empty_iff (s : string) : trim s = "" <-> isBlank s = true.
Proof.
  split; [| apply trim_blank].
  unfold trim, isBlank. intros H.
  pose proof (chars_wellShaped s) as W.
  destruct (trimStartChars_suffix (chars s)) as [pre Hs].
  destruct (trimEndChars_prefix (trimStartChars (chars s))) as [post Ht].
  assert (W' : Forall (fun ch => wellShaped ch = true)
                 (trimEndChars (trimStartChars (chars s)))).
  { rewrite Hs in W. apply Forall_app in W. destruct W as [_ W].
    rewrite Ht in W. apply Forall_app in W. tauto. }
  apply (join_nil _ W') in H. apply trimEndChars_nil in H.
  apply trimStartChars_blank.
  destruct (trimStartChars (chars s)) as [|x r] eqn:E; [reflexivity |].
  apply trimStartChars_head in E. cbn [forallb] in H. now rewrite E in H.
Qed.

(** *** Keywords *)

(** A plain keyword is found in the lowercased, trimmed input exactly when
    the raw input holds it up to the case of its letters. *)
Lemma keyword_found_iff (k raw : string) :
  plainWord k = true ->
  includes (trim (toLowerCase raw)) k = true <-> SubstringCI k raw.
Proof.
  intros Hk. rewrite includes_iff. split.
  - intros H. apply trim_inside in H. now apply lowered_reflects.
  - intros H. apply trim_keeps; [exact Hk |]. now apply lowered_keeps.
Qed.

Lemma keyword_survives (k raw : string) :
  plainWord k = true -> SubstringCI k raw ->
  includes (trim (toLowerCase raw)) k = true.
Proof. intros Hk H. now apply keyword_found_iff. Qed.

Lemma keyword_missing (k raw : string) :
  plainWord k = true -> ~ SubstringCI k raw ->
  includes (trim (toLowerCase raw)) k = false.
Proof.
  intros Hk H. destruct (includes _ k) eqn:E; [| reflexivity].
  apply (keyword_found_iff k raw Hk) in E. contradiction.
Qed.

End CaseFacts.

(** ** The normalizer *)

Example normalize_Beaches : normalizeInput "Beaches" = "beaches".
Proof. vm_compute. reflexivity. Qed.

Example normalize_best_beach : normalizeInput "  best beach " = "beaches".
Proof. vm_compute. reflexivity. Qed.

Example normalize_BEACH : normalizeInput "BEACH" = "beaches".
Proof. vm_compute. reflexivity. Qed.

Example normalize_ancient_temple : normalizeInput "ancient temple" = "temples".
Proof. vm_compute. reflexivity. Qed.

Example normalize_Country : normalizeInput "Country" = "countries".
Proof. vm_compute. reflexivity. Qed.

Example normalize_japan : normalizeInput " Japan" = "japan".
Proof. vm_compute. reflexivity. Qed.

Example normalize_beach_temple : normalizeInput "Temple by the Beach" = "beaches".
Proof. vm_compute. reflexivity. Qed.

Example lower_sigma : toLowerCase "ΟΔΟΣ ΣΟΦΟΣ" = "οδος σοφος".
Proof. vm_compute. reflexivity. Qed.

Example lower_dotted : toLowerCase "İSTANBUL" = "i̇stanbul".
Proof. vm_compute. reflexivity. Qed.

Example lower_accents : toLowerCase "SÃO PAULO, MÉXICO, ÉGYPTE" = "são paulo, méxico, égypte".
Proof. vm_compute. reflexivity. Qed.

Example trim_unicode_blanks :
  trim (Sample.nbsp ++ Sample.lineSeparator ++ " Rio de Janeiro " ++ Sample.nbsp)
  = "Rio de Janeiro".
Proof. vm_compute. reflexivity. Qed.

(** C1. [normalizeInput] lowercases and trims its argument, then answers
    [beaches] when the outcome contains [beach], otherwise [temples] when it
    contains [temple], otherwise [countries] when it contains [country],
    otherwise the lowercased trimmed text itself.  The tests run in that
    order: an input that holds both [beach] and [temple], in any letter
    case, gives [beaches].  A keyword is in the lowercased trimmed text
    exactly when the raw input holds it in some letter case; blanks around
    the input, no-break space and line separator included, are dropped, and
    accented capitals are lowered. *)
Theorem normalizeInput_cases (raw : string) :
  let lowerTerm := trim (toLowerCase raw) in
  (Substring "beach" lowerTerm -> normalizeInput raw = "beaches")
  /\ (~ Substring "beach" lowerTerm -> Substring "temple" lowerTerm ->
      normalizeInput raw = "temples")
  /\ (~ Substring "beach" lowerTerm -> ~ Substring "temple" lowerTerm ->
      Substring "country" lowerTerm -> normalizeInput raw = "countries")
  /\ (~ Substring "beach" lowerTerm -> ~ Substring "temple" lowerTerm ->
      ~ Substring "country" lowerTerm -> normalizeInput raw = lowerTerm)
  /\ (SubstringCI "beach" raw -> SubstringCI "temple" raw ->
      normalizeInput raw = "beaches")
  /\ (Substring "beach" lowerTerm <-> SubstringCI "beach" raw)
  /\ (Substring "temple" lowerTerm <-> SubstringCI "temple" raw)
  /\ (Substring "country" lowerTerm <-> SubstringCI "country" raw)
  /\ normalizeInput "  Best BEACH " = "beaches"
  /\ normalizeInput "Ancient TEMPLE" = "temples"
  /\ normalizeInput "  Japan " = "japan"
  /\ normalizeInput (Sample.nbsp ++ " ÉGYPTE" ++ Sample.lineSeparator) = "égypte".
Proof.
  intros lowerTerm. unfold normalizeInput. fold lowerTerm.
  split; [| split; [| split; [| split; [| split; [| split; [| split; [| split]]]]]]].
  - intros H. apply includes_iff in H. now rewrite H.
  - intros Hb Ht. apply includes_false_iff in Hb. apply includes_iff in Ht.
    now rewrite Hb, Ht.
  - intros Hb Ht Hc. apply includes_false_iff in Hb, Ht. apply includes_iff in Hc.
    now rewrite Hb, Ht, Hc.
  - intros Hb Ht Hc. apply includes_false_iff in Hb, Ht, Hc.
    now rewrite Hb, Ht, Hc.
  - intros Hb _. unfold lowerTerm.
    now rewrite (keyword_survives "beach" raw eq_refl Hb).
  - rewrite <- includes_iff. apply keyword_found_iff. reflexivity.
  - rewrite <- includes_iff. apply keyword_found_iff. reflexivity.
  - rewrite <- includes_iff. apply keyword_found_iff. reflexivity.
  - clear lowerTerm. vm_compute. repeat split.
Qed.

(** ** The search filter *)

Section SearchFacts.

Variable d : Dataset.

Lemma displayItem_id (city : Place.t) : displayItem city = city.
Proof. now destruct city. Qed.

Lemma push_each (cs : list Place.t) (acc : list Place.t) :
  fold_left (fun results city => (results ++ [displayItem city])%list) cs acc
  = (acc ++ map displayItem cs)%list.
Proof.
  revert acc; induction cs as [|c cs IH]; intros acc; simpl.
  - now rewrite List.app_nil_r.
  - now rewrite IH, <- List.app_assoc.
Qed.

Lemma pushCities_app (acc : list Place.t) (country : Country.t) :
  pushCities acc country = (acc ++ map displayItem (Country.cities country))%list.
Proof. unfold pushCities. apply push_each. Qed.

Lemma pushCities_flat (cs : list Country.t) (acc : list Place.t) :
  fold_left pushCities cs acc
  = (acc ++ flat_map (fun country => map displayItem (Country.cities country)) cs)%list.
Proof.
  revert acc; induction cs as [|c cs IH]; intros acc; simpl.
  - now rewrite List.app_nil_r.
  - now rewrite IH, pushCities_app, <- List.app_assoc.
Qed.

Lemma flat_map_displayItem (cs : list Country.t) :
  flat_map (fun country => map displayItem (Country.cities country)) cs
  = flat_map Country.cities cs.
Proof.
  induction cs as [|c cs IH]; simpl; [reflexivity |].
  rewrite IH. f_equal. rewrite <- (map_id (Country.cities c)) at 2.
  apply map_ext, displayItem_id.
Qed.


Lemma normalizeInput_blank (raw : string) : isBlank raw = true -> normalizeInput raw = "".
Proof.
  intros H. unfold normalizeInput.
  now rewrite (toLowerCase_blank raw H), (trim_blank raw H).
Qed.

Example search_japan :
  search Sample.data "japan" = ([Sample.tokyo; Sample.kyoto], "countries").
Proof. reflexivity. Qed.

Example search_countries :
  search Sample.data "countries"
  = ([Sample.tokyo; Sample.kyoto; Sample.rio], "countries").
Proof. reflexivity. Qed.

Example search_beach :
  search Sample.data "beach" = ([Sample.boraBora; Sample.copacabana], "beaches").
Proof. reflexivity. Qed.

Example search_empty : search Sample.data "" = ([], "").
Proof. reflexivity. Qed.


(** C3. When the normalized term is [beaches] or [temples], the search
    answers that token as category and the dataset sequence stored under
    it, as it is: same items, same order. *)
Theorem search_by_category (raw token : string) (items : list Place.t) :
  normalizeInput raw = token ->
  (token = "beaches" /\ beaches d = Seq items)
  \/ (token = "temples" /\ temples d = Seq items) ->
  search d raw = (items, token).
Proof.
  intros Hn [[-> Hm] | [-> Hm]]; unfold search, member; rewrite Hn; simpl;
    now rewrite Hm.
Qed.

(** C4. An empty or blank input (any mix of ECMAScript white space and
    line terminators) trims to the empty string and normalizes to the empty
    string, which is none of the three category tokens; the search then
    takes neither branch and answers no result and the empty category. *)
Theorem search_blank_input (raw : string) :
  isBlank raw = true ->
  trim raw = ""
  /\ normalizeInput raw = ""
  /\ normalizeInput raw <> "beaches" /\ normalizeInput raw <> "temples"
  /\ normalizeInput raw <> "countries"
  /\ search d raw = ([], "").
Proof.
  intros H. pose proof (normalizeInput_blank raw H) as Hn.
  pose proof (trim_blank raw H) as Ht.
  rewrite Hn. split; [exact Ht |]. split; [reflexivity |].
  split; [discriminate |]. split; [discriminate |]. split; [discriminate |].
  unfold search. rewrite Hn, Ht. reflexivity.
Qed.

End SearchFacts.

(** ** The page: rendering, loading, searching, resetting *)

Section ScriptFacts.

Variable fetch : nat -> FetchOutcome.
Variable clock : JsValue -> option string.

(** *** Rendering *)

Lemma appendCards_frame (category : string) (results : list Place.t) (p : Page) :
  let p' := fold_left (appendCard clock category) results p in
  travelData p' = travelData p /\ searchInput_value p' = searchInput_value p
  /\ style p' = style p /\ requests p' = requests p.
Proof.
  revert p; induction results as [|item results IH]; intros p; simpl.
  - repeat split.
  - destruct (IH (appendCard clock category p item)) as (A & B & C & D).
    rewrite A, B, C, D. repeat split.
Qed.

Lemma appendCards_innerHTML (category : string) (results : list Place.t) (p : Page) :
  innerHTML (fold_left (appendCard clock category) results p)
  = innerHTML p ++ cards clock category results.
Proof.
  revert p; induction results as [|item results IH]; intros p; simpl.
  - now rewrite app_empty_r.
  - rewrite IH. simpl. now rewrite app_assoc'.
Qed.

Lemma display_frame (results : list Place.t) (category : string) (p : Page) :
  let p' := displayRecommendations clock results category p in
  travelData p' = travelData p /\ searchInput_value p' = searchInput_value p
  /\ requests p' = requests p.
Proof.
  unfold displayRecommendations. destruct (length results =? 0)%nat.
  - repeat split.
  - destruct (appendCards_frame category results
                (set_style gridStyle (set_innerHTML "" p))) as (A & B & _ & D).
    repeat split; assumption.
Qed.

Lemma display_empty (category : string) (p : Page) :
  innerHTML (displayRecommendations clock [] category p) = noResultsHtml.
Proof. reflexivity. Qed.

Lemma display_cards (results : list Place.t) (category : string) (p : Page) :
  results <> [] ->
  innerHTML (displayRecommendations clock results category p)
  = cards clock category results.
Proof.
  intros H. unfold displayRecommendations.
  destruct results as [|item results]; [contradiction |].
  cbn [length Nat.eqb]. now rewrite appendCards_innerHTML.
Qed.

Lemma cards_app (category : string) (xs ys : list Place.t) :
  cards clock category (xs ++ ys) = cards clock category xs ++ cards clock category ys.
Proof.
  induction xs as [|x xs IH]; [reflexivity |].
  cbn [List.app]. unfold cards in *. cbn [fold_right].
  now rewrite IH, app_assoc'.
Qed.

(** *** Searching with the data at hand *)

Lemma searchAndDisplay_frame (d : Dataset) (p : Page) :
  let p' := searchAndDisplay clock d p in
  travelData p' = travelData p /\ searchInput_value p' = searchInput_value p
  /\ requests p' = requests p.
Proof.
  unfold searchAndDisplay. destruct (search d (searchInput_value p)) as [results category].
  apply display_frame.
Qed.

Lemma performSearch_cached (d : Dataset) (p : Page) :
  travelData p = Some d ->
  performSearch fetch clock p = searchAndDisplay clock d p.
Proof. intros H. unfold performSearch. now rewrite H. Qed.

Lemma step_cached (d : Dataset) (p : Page) (e : Event) :
  travelData p = Some d ->
  travelData (step fetch clock p e) = Some d
  /\ requests (step fetch clock p e) = requests p.
Proof.
  intros H. destruct e as [text | |]; simpl.
  - now split.
  - rewrite (performSearch_cached d p H).
    destruct (searchAndDisplay_frame d p) as (A & _ & C). rewrite A, C. now split.
  - now split.
Qed.

Lemma run_cached (d : Dataset) (events : list Event) (p : Page) :
  travelData p = Some d ->
  travelData (run fetch clock events p) = Some d
  /\ requests (run fetch clock events p) = requests p.
Proof.
  unfold run. revert p; induction events as [|e events IH]; intros p H;
    cbn [fold_left].
  - now split.
  - destruct (step_cached d p e H) as [A B].
    destruct (IH _ A) as [C D]. rewrite C, D, B. now split.
Qed.

(** *** Loading *)

Lemma tryFetch_fails (response : FetchOutcome) (message : string) :
  tryFetch response = inl message <-> LoadFails response message.
Proof.
  split.
  - destruct response as [m | [|] status [m | data]]; simpl; intros H;
      inversion H; subst; constructor.
  - intros H; destruct H; reflexivity.
Qed.

Lemma fetch_success (p : Page) (d : Dataset) (p1 : Page) :
  fetchRecommendations fetch p = (Some d, p1) ->
  travelData p1 = Some d /\ requests p1 = S (requests p).
Proof.
  unfold fetchRecommendations. destruct (tryFetch (fetch (requests p))); intros H;
    inversion H; subst; now split.
Qed.

Lemma fetch_counts (p : Page) :
  requests (snd (fetchRecommendations fetch p)) = S (requests p).
Proof.
  unfold fetchRecommendations. now destruct (tryFetch (fetch (requests p))).
Qed.

Lemma errorHtml_detail (message : string) : Substring message (errorHtml message).
Proof. unfold errorHtml. do 5 apply Substring_app_l. apply Substring_here. Qed.


Lemma performSearch_loads (p : Page) :
  travelData p = None -> requests (performSearch fetch clock p) = S (requests p).
Proof.
  intros H. unfold performSearch. rewrite H.
  pose proof (fetch_counts p) as Hc.
  destruct (fetchRecommendations fetch p) as [[d|] p1]; simpl in *.
  - destruct (searchAndDisplay_frame d (set_travelData (Some d) p1)) as (_ & _ & C).
    now rewrite C.
  - exact Hc.
Qed.

(** C5, as the script has it.  Once a call of [fetchRecommendations] has
    succeeded, the dataset sits in [travelData], and whatever the user does
    next (typing, searching, resetting, any number of times) leaves it there
    and sends no request: one request in total.  The same holds when the
    successful load is the one a search starts because the dataset is
    missing.  The test of the cache is the guard of [performSearch]. *)
Theorem cached_dataset_is_reused (p p1 : Page) (d : Dataset) (events : list Event) :
  fetchRecommendations fetch p = (Some d, p1) ->
  travelData p1 = Some d
  /\ travelData (run fetch clock events p1) = Some d
  /\ requests (run fetch clock events p1) = S (requests p)
  /\ (travelData p = None ->
      travelData (run fetch clock (ClickSearch :: events) p) = Some d
      /\ requests (run fetch clock (ClickSearch :: events) p) = S (requests p)).
Proof.
  intros H. destruct (fetch_success p d p1 H) as [Hd Hn].
  destruct (run_cached d events p1 Hd) as [A B].
  split; [exact Hd | split; [exact A | split; [congruence |]]].
  intros Hnone. unfold run. cbn [fold_left step].
  assert (Hs : travelData (performSearch fetch clock p) = Some d).
  { unfold performSearch. rewrite Hnone, H.
    destruct (searchAndDisplay_frame d (set_travelData (Some d) p1)) as (X & _).
    now rewrite X. }
  destruct (run_cached d events _ Hs) as [X Y]. unfold run in X, Y.
  split; [exact X |]. rewrite Y. now apply performSearch_loads.
Qed.


(** *** The time annotation *)

Lemma timezone_nonempty (placeName tz : string) :
  ownProperty timezoneMap placeName = Some tz -> tz <> "".
Proof.
  unfold timezoneMap. cbn [ownProperty].
  repeat match goal with
         | |- context [if ?k =? placeName then _ else _] => destruct (k =? placeName)
         end; intros H; inversion H; discriminate.
Qed.

Lemma getProperty_own (placeName tz : string) :
  ownProperty timezoneMap placeName = Some tz ->
  getProperty timezoneMap placeName = JsStr tz.
Proof. intros H. unfold getProperty. now rewrite H. Qed.

Lemma getProperty_missing (placeName : string) :
  ownProperty timezoneMap placeName = None ->
  getProperty timezoneMap placeName = undefined
  \/ getProperty timezoneMap placeName = JsObj placeName.
Proof.
  intros H. unfold getProperty. rewrite H.
  destruct (existsb (String.eqb placeName) objectPrototype); [now right | now left].
Qed.

Lemma timeDisplay_countries (item : Place.t) :
  timeDisplay clock "countries" item
  = if truthy (currentTime clock (Place.name item))
    then timeHtml (currentTime clock (Place.name item)) else "".
Proof. reflexivity. Qed.

Lemma timeDisplay_other (category : string) (item : Place.t) :
  category <> "countries" -> timeDisplay clock category item = "".
Proof.
  intros H. unfold timeDisplay. apply String.eqb_neq in H. now rewrite H.
Qed.

(** C7. [currentTime] gives the empty string for a name that is not in the
    timezone table, and whenever the formatting throws; for a name of the
    table whose zone is formatted it gives the formatted text (for
    [Tokyo, Japan], a non-empty text).  A result whose time is empty gets
    its card without annotation, between the cards of the results before
    and after it: nothing else is written and the rendering goes on.
    The environment is one where a value inherited from [Object.prototype]
    is rejected as a time zone. *)
Theorem currentTime_silent :
  (forall key, clock (JsObj key) = None) ->
  (forall placeName,
      ownProperty timezoneMap placeName = None -> currentTime clock placeName = "")
  /\ (forall placeName,
      clock (getProperty timezoneMap placeName) = None ->
      currentTime clock placeName = "")
  /\ (forall placeName tz formatted,
      ownProperty timezoneMap placeName = Some tz ->
      clock (JsStr tz) = Some formatted ->
      currentTime clock placeName = formatted)
  /\ (forall formatted,
      clock (JsStr "Asia/Tokyo") = Some formatted -> formatted <> "" ->
      currentTime clock "Tokyo, Japan" = formatted
      /\ currentTime clock "Tokyo, Japan" <> "")
  /\ (forall before item after p,
      currentTime clock (Place.name item) = "" ->
      innerHTML (displayRecommendations clock (before ++ item :: after) "countries" p)
      = cards clock "countries" before
        ++ itemHtml (imageUrlOf item) item ""
        ++ cards clock "countries" after).
Proof.
  intros Hobj.
  assert (Hfmt : forall placeName tz formatted,
             ownProperty timezoneMap placeName = Some tz ->
             clock (JsStr tz) = Some formatted ->
             currentTime clock placeName = formatted).
  { intros placeName tz formatted Hown Hc. unfold currentTime, getCurrentTime.
    rewrite (getProperty_own _ _ Hown). cbn [falsy].
    pose proof (timezone_nonempty _ _ Hown) as Hne.
    apply String.eqb_neq in Hne. now rewrite Hne, Hc. }
  split; [| split; [| split; [| split]]].
  - intros placeName H. unfold currentTime, getCurrentTime.
    destruct (getProperty_missing placeName H) as [-> | ->]; [reflexivity |].
    cbn [falsy]. now rewrite Hobj.
  - intros placeName H. unfold currentTime, getCurrentTime.
    rewrite H. now destruct (falsy _).
  - exact Hfmt.
  - intros formatted Hc Hne.
    assert (E : currentTime clock "Tokyo, Japan" = formatted).
    { apply (Hfmt "Tokyo, Japan" "Asia/Tokyo" formatted); [reflexivity | exact Hc]. }
    rewrite E. now split.
  - intros before item after p H.
    rewrite display_cards by (destruct before; discriminate).
    rewrite cards_app. f_equal. unfold cards at 1. cbn [fold_right].
    fold (cards clock "countries" after). f_equal.
    unfold card. now rewrite timeDisplay_countries, H.
Qed.

(** C8. Under any category other than [countries] no item gets a time
    annotation: its card is the card with an empty annotation, and the
    rendered page does not depend on the clock at all. *)
Theorem time_only_for_cities (category : string) :
  category <> "countries" ->
  (forall item, timeDisplay clock category item = "")
  /\ (forall item, card clock category item = itemHtml (imageUrlOf item) item "")
  /\ (forall clock' results p,
      displayRecommendations clock results category p
      = displayRecommendations clock' results category p).
Proof.
  intros H.
  assert (Hcard : forall c item, card c category item = itemHtml (imageUrlOf item) item "").
  { intros c item. unfold card, timeDisplay. apply String.eqb_neq in H. now rewrite H. }
  split; [| split].
  - intros item. now apply timeDisplay_other.
  - intros item. apply Hcard.
  - intros clock' results p. unfold displayRecommendations.
    destruct (length results =? 0)%nat; [reflexivity |].
    generalize (set_style gridStyle (set_innerHTML "" p)).
    induction results as [|item results IH]; intros q; [reflexivity |].
    cbn [fold_left]. unfold appendCard at 2 4. rewrite !Hcard. apply IH.
Qed.

(** C9. The reset handler empties the input field and the results
    container, puts the container back to block display with no top margin,
    and touches neither the cached dataset nor the network. *)
Theorem reset_clears_and_keeps_data (p : Page) :
  searchInput_value (resetClick p) = ""
  /\ innerHTML (resetClick p) = ""
  /\ display (style (resetClick p)) = "block"
  /\ marginTop (style (resetClick p)) = "0"
  /\ travelData (resetClick p) = travelData p
  /\ requests (resetClick p) = requests p.
Proof. repeat split. Qed.

(** C10. When the dataset has no [beaches] (or [temples]) member, or has
    [null] there, a search normalized to that token still completes: the
    read is defaulted to the empty sequence, so the search answers no
    result under that token and the page shows the notice for no result. *)
Theorem search_missing_member (d : Dataset) (raw token : string) (p : Page) :
  normalizeInput raw = token ->
  (token = "beaches" /\ (beaches d = Absent \/ beaches d = Null))
  \/ (token = "temples" /\ (temples d = Absent \/ temples d = Null)) ->
  travelData p = Some d -> searchInput_value p = raw ->
  search d raw = ([], token)
  /\ innerHTML (performSearch fetch clock p) = noResultsHtml
  /\ travelData (performSearch fetch clock p) = Some d
  /\ requests (performSearch fetch clock p) = requests p.
Proof.
  intros Hn Hm Hd Hraw.
  assert (Hs : search d raw = ([], token)).
  { destruct Hm as [[-> [Hm | Hm]] | [-> [Hm | Hm]]];
      unfold search, member; rewrite Hn; simpl; now rewrite Hm. }
  rewrite (performSearch_cached d p Hd).
  destruct (searchAndDisplay_frame d p) as (A & _ & C).
  repeat split; try congruence.
  unfold searchAndDisplay. rewrite Hraw, Hs. apply display_empty.
Qed.

End ScriptFacts.

(** ** The theorems at work on the sample page *)


Lemma search_by_category_beach :
  normalizeInput "beach" = "beaches"
  /\ beaches Sample.data = Seq [Sample.boraBora; Sample.copacabana]
  /\ search Sample.data "beach" = ([Sample.boraBora; Sample.copacabana], "beaches").
Proof.
  split; [reflexivity | split; [reflexivity |]].
  apply (search_by_category Sample.data "beach" "beaches"); [reflexivity |].
  left. split; reflexivity.
Defined.

Lemma search_blank_input_spaces :
  isBlank Sample.blanks = true
  /\ trim Sample.blanks = ""
  /\ search Sample.data Sample.blanks = ([], "").
Proof.
  assert (H : isBlank Sample.blanks = true) by (vm_compute; reflexivity).
  split; [exact H |].
  destruct (search_blank_input Sample.data Sample.blanks H) as (Ht & _ & _ & _ & _ & Hs).
  split; [exact Ht | exact Hs].
Defined.

Lemma cached_dataset_is_reused_session :
  fetchRecommendations Sample.online Sample.blank = (Some Sample.data, Sample.loaded)
  /\ requests (run Sample.online Sample.clock Sample.session Sample.loaded) = 1.
Proof.
  assert (H : fetchRecommendations Sample.online Sample.blank
               = (Some Sample.data, Sample.loaded)) by reflexivity.
  split; [exact H |].
  destruct (cached_dataset_is_reused Sample.online Sample.clock
              Sample.blank Sample.loaded Sample.data Sample.session H) as (_ & _ & Hn & _).
  exact Hn.
Defined.

(** C5 as worded fails on [fetchRecommendations]: the function never looks
    at [travelData] before it sends its request.  Called a second time
    after a first call that succeeded and stored the dataset, it sends a
    second request. *)
Lemma second_load_fetches_again :
  let first := fetchRecommendations Sample.online Sample.blank in
  let second := fetchRecommendations Sample.online (snd first) in
  fst first = Some Sample.data
  /\ travelData (snd first) = Some Sample.data
  /\ requests (snd first) = 1
  /\ requests (snd second) = 2
  /\ requests (snd second) <> 1.
Proof.
  cbv zeta. repeat split. vm_compute. discriminate.
Qed.



Lemma currentTime_silent_sample :
  (forall key, Sample.clock (JsObj key) = None)
  /\ currentTime Sample.clock "Unknown City" = ""
  /\ currentTime Sample.clock "toString" = ""
  /\ currentTime Sample.clock "Sydney, Australia" = ""
  /\ currentTime Sample.clock "Tokyo, Japan" = "Nov 2, 2026, 4:07:09 PM".
Proof.
  assert (H : forall key, Sample.clock (JsObj key) = None) by (intros key; reflexivity).
  destruct (currentTime_silent Sample.clock H) as (Habsent & Hthrow & Hfmt & _).
  split; [exact H |]. split; [| split; [| split]].
  - apply Habsent. reflexivity.
  - apply Habsent. reflexivity.
  - apply Hthrow. reflexivity.
  - apply (Hfmt "Tokyo, Japan" "Asia/Tokyo"); reflexivity.
Defined.

Lemma time_only_for_cities_beaches :
  "beaches" <> "countries"
  /\ timeDisplay Sample.clock "beaches" Sample.copacabana = "".
Proof.
  assert (H : "beaches" <> "countries") by discriminate.
  split; [exact H |].
  apply (proj1 (time_only_for_cities Sample.clock "beaches" H)).
Defined.

Lemma search_missing_member_sparse :
  beaches Sample.sparse = Absent
  /\ innerHTML (performSearch Sample.online Sample.clock
                  (mkPage (Some Sample.sparse) "beach" "" (mkStyle "" "" "" "") 1))
     = noResultsHtml.
Proof.
  split; [reflexivity |].
  apply (search_missing_member Sample.online Sample.clock Sample.sparse "beach" "beaches").
  - reflexivity.
  - left. split; [reflexivity | left; reflexivity].
  - reflexivity.
  - reflexivity.
Defined.

(** * Further properties of the script *)

(** ** More on the search *)

Section MoreSearchFacts.

Variable d : Dataset.

Lemma search_category_cases (raw : string) :
  (snd (search d raw) = "beaches" /\ normalizeInput raw = "beaches")
  \/ (snd (search d raw) = "temples" /\ normalizeInput raw = "temples")
  \/ (snd (search d raw) = "countries" /\ isBlank raw = false)
  \/ (search d raw = ([], "") /\ isBlank raw = true).
Proof.
  unfold search.
  destruct (normalizeInput raw =? "beaches") eqn:Eb.
  { apply String.eqb_eq in Eb. left. now rewrite Eb. }
  destruct (normalizeInput raw =? "temples") eqn:Et.
  { apply String.eqb_eq in Et. right; left. now rewrite Et. }
  cbn [orb].
  destruct (isBlank raw) eqn:Ebl.
  - right; right; right.
    rewrite (normalizeInput_blank raw Ebl), (trim_blank raw Ebl). now split.
  - right; right; left.
    assert (Hne : (trim raw =? "") = false).
    { apply String.eqb_neq. intros H. apply trim_empty_iff in H. congruence. }
    rewrite Hne, orb_true_r. now split.
Qed.

(** X3. The category a search answers is one of [beaches], [temples],
    [countries] and the empty string, and it is the empty string exactly
    when the input is empty or blank. *)
Theorem search_category_range (raw : string) :
  (snd (search d raw) = "beaches" \/ snd (search d raw) = "temples"
   \/ snd (search d raw) = "countries" \/ snd (search d raw) = "")
  /\ (snd (search d raw) = "" <-> isBlank raw = true)
  /\ snd (search d (Sample.nbsp ++ Sample.lineSeparator)) = "".
Proof.
  assert (Hblank : forall text, isBlank text = true -> snd (search d text) = "").
  { intros text Hb. unfold search. rewrite (normalizeInput_blank text Hb). cbn.
    now rewrite (trim_blank text Hb). }
  assert (Hpin : snd (search d (Sample.nbsp ++ Sample.lineSeparator)) = "").
  { apply Hblank. vm_compute. reflexivity. }
  destruct (search_category_cases raw) as [[H _] | [[H _] | [[H _] | [H Hb]]]].
  - split; [now left |]. split; [| exact Hpin].
    split; [intros E; rewrite H in E; discriminate | apply Hblank].
  - split; [now right; left |]. split; [| exact Hpin].
    split; [intros E; rewrite H in E; discriminate | apply Hblank].
  - split; [now right; right; left |]. split; [| exact Hpin].
    split; [intros E; rewrite H in E; discriminate | apply Hblank].
  - rewrite H. split; [now right; right; right |]. split; [now split | exact Hpin].
Qed.

End MoreSearchFacts.

(** ** Keywords in the raw input *)

Section KeywordSearch.

Variable d : Dataset.

(** X4. A keyword anywhere in the input, in any letter case, decides the
    search whatever else is typed: with [beach] the answer is the beaches;
    with [temple] and no [beach], the temples.  A missing or [null] member
    counts as the empty sequence. *)
Theorem search_keyword_wins (raw token : string) (m : Member) :
  (SubstringCI "beach" raw /\ token = "beaches" /\ m = beaches d)
  \/ (SubstringCI "temple" raw /\ ~ SubstringCI "beach" raw
      /\ token = "temples" /\ m = temples d) ->
  normalizeInput raw = token /\ search d raw = (orEmpty m, token).
Proof.
  intros [(Hb & -> & ->) | (Ht & Hb & -> & ->)].
  - assert (Hn : normalizeInput raw = "beaches").
    { unfold normalizeInput.
      now rewrite (keyword_survives "beach" raw eq_refl Hb). }
    split; [exact Hn |]. unfold search. now rewrite Hn.
  - assert (Hn : normalizeInput raw = "temples").
    { unfold normalizeInput.
      rewrite (keyword_missing "beach" raw eq_refl Hb).
      now rewrite (keyword_survives "temple" raw eq_refl Ht). }
    split; [exact Hn |]. unfold search. now rewrite Hn.
Qed.

Lemma filter_all {A : Type} (f : A -> bool) (l : list A) :
  (forall x, In x l -> f x = true) -> filter f l = l.
Proof.
  induction l as [|x l IH]; intros H; [reflexivity |].
  cbn. rewrite (H x (or_introl eq_refl)). f_equal. apply IH.
  intros y Hy. apply H. now right.
Qed.

Lemma filter_none {A : Type} (f : A -> bool) (l : list A) :
  (forall x, In x l -> f x = false) -> filter f l = [].
Proof.
  induction l as [|x l IH]; intros H; [reflexivity |].
  cbn. rewrite (H x (or_introl eq_refl)). apply IH.
  intros y Hy. apply H. now right.
Qed.

(** X5. When the input normalizes to [countries] (it holds [country] and
    neither [beach] nor [temple], or it is the word [countries] itself),
    the search answers every city of every country, in stored order,
    whatever the country names are. *)
Theorem search_all_countries (raw : string) :
  normalizeInput raw = "countries" ->
  search d raw = (flat_map Country.cities (countries d), "countries").
Proof.
  intros Hn. unfold search. rewrite Hn. cbn [String.eqb Ascii.eqb Bool.eqb orb].
  rewrite filter_all.
  - now rewrite pushCities_flat, flat_map_displayItem.
  - intros country _. apply orb_true_r.
Qed.

(** X6. A free-text term that no country name contains gives no result,
    still under the category [countries]: city names are not searched. *)
Theorem search_unmatched_term (raw : string) :
  isBlank raw = false ->
  normalizeInput raw <> "beaches" -> normalizeInput raw <> "temples" ->
  normalizeInput raw <> "countries" ->
  (forall country, In country (countries d) ->
     ~ Substring (trim (toLowerCase raw)) (toLowerCase (Country.name country))) ->
  search d raw = ([], "countries").
Proof.
  intros Hblank Hb Ht Hc Hno. unfold search.
  apply String.eqb_neq in Hb, Ht, Hc. rewrite Hb, Ht, Hc. cbn [orb].
  assert (Hne : (trim raw =? "") = false).
  { apply String.eqb_neq. intros H. apply trim_empty_iff in H. congruence. }
  rewrite Hne. cbn [negb]. rewrite filter_none; [reflexivity |].
  intros country Hin. rewrite orb_false_r. apply includes_false_iff. now apply Hno.
Qed.

End KeywordSearch.

(** ** More on the page *)

Section PageFacts.

Variable fetch : nat -> FetchOutcome.
Variable clock : JsValue -> option string.

Lemma set_innerHTML_twice (a b : string) (p : Page) :
  set_innerHTML a (set_innerHTML b p) = set_innerHTML a p.
Proof. reflexivity. Qed.

Lemma appendCards_page (category : string) (results : list Place.t) (q : Page) :
  fold_left (appendCard clock category) results q
  = set_innerHTML (innerHTML q ++ cards clock category results) q.
Proof.
  revert q; induction results as [|item results IH]; intros q.
  - cbn [fold_left cards fold_right]. rewrite app_empty_r. now destruct q.
  - cbn [fold_left]. rewrite IH. unfold appendCard at 1 2.
    rewrite set_innerHTML_twice. f_equal.
    unfold set_innerHTML at 1. cbn [innerHTML].
    unfold cards. cbn [fold_right]. now rewrite app_assoc'.
Qed.

(** The page a rendering leaves, field by field. *)
Lemma display_page (results : list Place.t) (category : string) (p : Page) :
  displayRecommendations clock results category p
  = mkPage (travelData p) (searchInput_value p)
           (match results with [] => noResultsHtml | _ => cards clock category results end)
           (match results with [] => style p | _ => gridStyle end)
           (requests p).
Proof.
  unfold displayRecommendations. destruct results as [|item results].
  - reflexivity.
  - cbn [length Nat.eqb]. rewrite appendCards_page. reflexivity.
Qed.

Lemma searchAndDisplay_page (d : Dataset) (p : Page) :
  searchAndDisplay clock d p
  = mkPage (travelData p) (searchInput_value p)
           (resultsHtml clock d (searchInput_value p))
           (match fst (search d (searchInput_value p)) with
            | [] => style p
            | _ => gridStyle
            end)
           (requests p).
Proof.
  unfold searchAndDisplay, resultsHtml.
  destruct (search d (searchInput_value p)) as [results category].
  rewrite display_page. cbn [fst snd]. now destruct results.
Qed.

Lemma Substring_trans (a b c : string) : Substring a b -> Substring b c -> Substring a c.
Proof.
  intros [p1 [q1 ->]] [p2 [q2 ->]]. exists (p2 ++ p1), (q1 ++ q2).
  now rewrite !app_assoc'.
Qed.

(** X7. A rendering depends on nothing the container showed before.  An
    empty list writes the notice for no result and leaves the inline style
    as it is; any other list writes its cards in order and sets the grid
    style.  The dataset, the input field and the request count are not
    touched. *)
Theorem display_contract (results : list Place.t) (category : string) (p : Page) :
  let p' := displayRecommendations clock results category p in
  (forall html, displayRecommendations clock results category (set_innerHTML html p) = p')
  /\ (results = [] -> innerHTML p' = noResultsHtml /\ style p' = style p)
  /\ (results <> [] -> innerHTML p' = cards clock category results /\ style p' = gridStyle)
  /\ travelData p' = travelData p
  /\ searchInput_value p' = searchInput_value p
  /\ requests p' = requests p.
Proof.
  cbv zeta. rewrite display_page. split; [| split; [| split]].
  - intros html. now rewrite display_page.
  - intros ->. now split.
  - intros H. destruct results; [contradiction | now split].
  - repeat split.
Qed.

(** X9. A time annotation shows up only for a country result whose name is
    a key of the timezone table and whose zone the clock can format; it is
    then the formatted text in its paragraph.  The environment is one where
    a value inherited from [Object.prototype] is rejected as a time zone. *)
Theorem annotation_needs_table_entry (category : string) (item : Place.t) :
  (forall key, clock (JsObj key) = None) ->
  timeDisplay clock category item <> "" ->
  category = "countries"
  /\ exists tz formatted,
       ownProperty timezoneMap (Place.name item) = Some tz
       /\ clock (JsStr tz) = Some formatted
       /\ formatted <> ""
       /\ timeDisplay clock category item = timeHtml formatted.
Proof.
  intros Hobj H.
  assert (Hc : category = "countries").
  { destruct (String.eqb_spec category "countries") as [E | E]; [exact E |].
    now rewrite (timeDisplay_other clock category item E) in H. }
  subst category. split; [reflexivity |].
  rewrite timeDisplay_countries in H |- *.
  unfold currentTime, getCurrentTime, getProperty in *.
  destruct (ownProperty timezoneMap (Place.name item)) as [tz |] eqn:Eown.
  - cbn [falsy] in *. destruct (tz =? "") eqn:Etz; [now elim H |].
    destruct (clock (JsStr tz)) as [formatted |] eqn:Ec; [| now elim H].
    exists tz, formatted. unfold truthy in *.
    destruct (formatted =? "") eqn:Ef; [now elim H |].
    apply String.eqb_neq in Ef. cbn [negb]. now repeat split.
  - destruct (existsb (String.eqb (Place.name item)) objectPrototype).
    + cbn [falsy] in H. rewrite Hobj in H. now elim H.
    + now elim H.
Qed.

End PageFacts.

(** X10. The image address of a card is never empty and never holds the
    marker [enter_your_image]: it is the item's own address, or the
    placeholder when the address is missing, empty or holds the marker. *)
Theorem imageUrlOf_never_marker (item : Place.t) :
  imageUrlOf item <> ""
  /\ ~ Substring "enter_your_image" (imageUrlOf item)
  /\ (Place.imageUrl item = Some (imageUrlOf item) \/ imageUrlOf item = placeholderUrl)
  /\ (forall url, Place.imageUrl item = Some url -> url <> "" ->
        ~ Substring "enter_your_image" url -> imageUrlOf item = url).
Proof.
  assert (Hp : placeholderUrl <> "" /\ ~ Substring "enter_your_image" placeholderUrl).
  { split; [discriminate |]. apply includes_false_iff. reflexivity. }
  unfold imageUrlOf. destruct (Place.imageUrl item) as [url |].
  - destruct (truthy url && negb (includes url "enter_your_image")) eqn:E.
    + apply andb_true_iff in E. destruct E as [Et Ei].
      unfold truthy in Et. apply negb_true_iff in Et, Ei.
      apply String.eqb_neq in Et. apply includes_false_iff in Ei.
      split; [exact Et | split; [exact Ei | split; [now left |]]].
      intros u Hu _ _. now injection Hu as ->.
    + split; [apply Hp | split; [apply Hp | split; [now right |]]].
      intros u Hu Hne Hno. injection Hu as ->.
      apply String.eqb_neq in Hne. apply includes_false_iff in Hno.
      unfold truthy in E. rewrite Hne, Hno in E. discriminate.
  - split; [apply Hp | split; [apply Hp | split; [now right |]]].
    intros u Hu. discriminate.
Qed.

(** ** Sessions: loading, searching again, resetting *)

Section SessionFacts.

Variable fetch : nat -> FetchOutcome.
Variable clock : JsValue -> option string.

Lemma tryFetch_succeeds (response : FetchOutcome) (d : Dataset) :
  tryFetch response = inr d <-> exists status, response = Response true status (JsonData d).
Proof.
  split.
  - destruct response as [m | [|] status [m | data]]; cbn; intros H;
      try discriminate.
    injection H as ->. now exists status.
  - intros [status ->]. reflexivity.
Qed.

Lemma fetch_loaded (p : Page) (d : Dataset) :
  tryFetch (fetch (requests p)) = inr d ->
  fetchRecommendations fetch p = (Some d, set_travelData (Some d) (count_request p)).
Proof. intros H. unfold fetchRecommendations. now rewrite H. Qed.

Lemma fetch_failed (p : Page) (message : string) :
  tryFetch (fetch (requests p)) = inl message ->
  fetchRecommendations fetch p = (None, set_innerHTML (errorHtml message) (count_request p)).
Proof. intros H. unfold fetchRecommendations. now rewrite H. Qed.

Lemma search_empty_input (d : Dataset) : search d "" = ([], "").
Proof. reflexivity. Qed.

Lemma step_requests (p : Page) (e : Event) :
  requests p <= requests (step fetch clock p e)
  /\ requests (step fetch clock p e)
     <= requests p + match e with ClickSearch => 1 | _ => 0 end.
Proof.
  destruct e as [text | |]; cbn [step].
  - cbn. lia.
  - destruct (travelData p) as [d |] eqn:E.
    + rewrite (performSearch_cached fetch clock d p E).
      destruct (searchAndDisplay_frame clock d p) as (_ & _ & ->). lia.
    + rewrite (performSearch_loads fetch clock p E). lia.
  - cbn. lia.
Qed.

(** X11. The loader accepts a response exactly when its status is a
    success and its body parses; it then stores the parsed data and leaves
    the container, the input field and the style as they were. *)
Theorem load_succeeds_iff (p : Page) (d : Dataset) :
  (fst (fetchRecommendations fetch p) = Some d
   <-> exists status, fetch (requests p) = Response true status (JsonData d))
  /\ (fst (fetchRecommendations fetch p) = Some d ->
      snd (fetchRecommendations fetch p) = set_travelData (Some d) (count_request p)).
Proof.
  split.
  - rewrite <- tryFetch_succeeds. unfold fetchRecommendations.
    destruct (tryFetch (fetch (requests p))) as [m | data]; cbn [fst]; split;
      intros H; try discriminate; now injection H as ->.
  - unfold fetchRecommendations.
    destruct (tryFetch (fetch (requests p))) as [m | data]; cbn [fst snd];
      intros H; [discriminate | now injection H as ->].
Qed.

(** X12. A response whose status is not a success is a failure whatever
    its body, a well-formed dataset included: nothing is stored, and the
    notice written in the container names the status code. *)
Theorem bad_status_is_named (p : Page) (status : nat) (body : JsonOutcome) :
  fetch (requests p) = Response false status body ->
  fst (fetchRecommendations fetch p) = None
  /\ travelData (snd (fetchRecommendations fetch p)) = travelData p
  /\ innerHTML (snd (fetchRecommendations fetch p)) = errorHtml (httpErrorMessage status)
  /\ Substring (decimal status) (innerHTML (snd (fetchRecommendations fetch p))).
Proof.
  intros H.
  rewrite (fetch_failed p (httpErrorMessage status)) by now rewrite H.
  cbn [fst snd]. repeat split.
  eapply Substring_trans; [| apply errorHtml_detail].
  unfold httpErrorMessage. apply Substring_app_l, Substring_here.
Qed.

(** X13. After a load that failed, a search tries again: when the next
    request succeeds the dataset is stored and the error notice gives way
    to the outcome of the search.  Two requests have been sent. *)
Theorem search_retries_after_failed_load
    (p : Page) (message : string) (status : nat) (d : Dataset) :
  travelData p = None ->
  LoadFails (fetch (requests p)) message ->
  fetch (S (requests p)) = Response true status (JsonData d) ->
  let p1 := domContentLoaded fetch p in
  let p2 := performSearch fetch clock p1 in
  innerHTML p1 = errorHtml message
  /\ travelData p1 = None
  /\ travelData p2 = Some d
  /\ requests p2 = S (S (requests p))
  /\ innerHTML p2 = resultsHtml clock d (searchInput_value p).
Proof.
  intros Hnone Hfail Hok p1 p2.
  assert (E1 : p1 = set_innerHTML (errorHtml message) (count_request p)).
  { unfold p1, domContentLoaded. apply tryFetch_fails in Hfail.
    now rewrite (fetch_failed p message Hfail). }
  assert (E2 : p2 = searchAndDisplay clock d
                      (set_travelData (Some d) (set_travelData (Some d) (count_request p1)))).
  { unfold p2, performSearch.
    assert (Hn1 : travelData p1 = None) by now rewrite E1.
    rewrite Hn1.
    rewrite (fetch_loaded p1 d); [reflexivity |].
    apply tryFetch_succeeds. exists status. now rewrite E1. }
  split; [now rewrite E1 | split; [now rewrite E1 |]].
  rewrite E2, searchAndDisplay_page, E1. now repeat split.
Qed.

(** X14. In any session the request count never goes down and grows by at
    most one for each click on the search button; typing and resetting
    send nothing. *)
Theorem requests_bounded_by_searches (events : list Event) (p : Page) :
  requests p <= requests (run fetch clock events p)
  /\ requests (run fetch clock events p) <= requests p + searches events.
Proof.
  unfold run, searches. revert p; induction events as [|e events IH]; intros p.
  - cbn. lia.
  - cbn [fold_left filter].
    destruct (IH (step fetch clock p e)) as [A B].
    destruct (step_requests p e) as [C D].
    destruct e; cbn [length] in *; lia.
Qed.

(** X15. With the dataset at hand, searching again without touching the
    input gives the page of a single search: the second rendering replaces
    the first one entirely, whatever the clock showed in between. *)
Theorem search_twice_is_search_once (p : Page) (d : Dataset)
    (clock' : JsValue -> option string) :
  travelData p = Some d ->
  performSearch fetch clock' (performSearch fetch clock p)
  = performSearch fetch clock' p.
Proof.
  intros H.
  rewrite (performSearch_cached fetch clock d p H).
  rewrite (performSearch_cached fetch clock' d p H).
  rewrite (performSearch_cached fetch clock' d (searchAndDisplay clock d p)).
  2:{ now rewrite searchAndDisplay_page. }
  rewrite !searchAndDisplay_page. cbn [travelData searchInput_value style requests].
  now destruct (fst (search d (searchInput_value p))).
Qed.

(** X16. The notice for no result does not undo the grid: when a search
    that found something is followed by one that finds nothing, the notice
    is written while the container keeps the grid style of the first. *)
Theorem notice_keeps_grid_style (p : Page) (d : Dataset) (text : string) :
  travelData p = Some d ->
  fst (search d (searchInput_value p)) <> [] ->
  fst (search d text) = [] ->
  let p' := performSearch fetch clock (set_value text (performSearch fetch clock p)) in
  innerHTML p' = noResultsHtml /\ style p' = gridStyle.
Proof.
  intros H Hfound Hnone p'. unfold p'.
  rewrite (performSearch_cached fetch clock d p H).
  rewrite (performSearch_cached fetch clock d).
  2:{ now rewrite searchAndDisplay_page. }
  rewrite !searchAndDisplay_page.
  cbn [set_value travelData searchInput_value style requests innerHTML].
  unfold resultsHtml. rewrite Hnone.
  destruct (fst (search d (searchInput_value p))); [contradiction | now split].
Qed.

(** X17. A search right after a reset runs on the emptied input: it shows
    the notice for no result, in the block display the reset has set, and
    sends nothing when the dataset is at hand. *)
Theorem search_after_reset (p : Page) (d : Dataset) :
  travelData p = Some d ->
  let p' := performSearch fetch clock (resetClick p) in
  innerHTML p' = noResultsHtml
  /\ searchInput_value p' = ""
  /\ display (style p') = "block"
  /\ marginTop (style p') = "0"
  /\ travelData p' = Some d
  /\ requests p' = requests p.
Proof.
  intros H p'. unfold p'.
  rewrite (performSearch_cached fetch clock d (resetClick p)) by exact H.
  rewrite searchAndDisplay_page.
  cbn [resetClick set_value set_innerHTML set_style searchInput_value travelData
       style requests innerHTML display marginTop gridTemplateColumns gap].
  unfold resultsHtml. rewrite search_empty_input. cbn [fst].
  now repeat split.
Qed.

End SessionFacts.

(** ** The further properties at work on the sample page *)

Lemma search_keyword_wins_resorts :
  SubstringCI "beach" "best BEACH resorts"
  /\ search Sample.data "best BEACH resorts"
     = ([Sample.boraBora; Sample.copacabana], "beaches").
Proof.
  assert (H : SubstringCI "beach" "best BEACH resorts").
  { exists "best ", "BEACH", " resorts". split; reflexivity. }
  split; [exact H |].
  exact (proj2 (search_keyword_wins Sample.data "best BEACH resorts" "beaches"
                  (beaches Sample.data)
                  (or_introl (conj H (conj eq_refl eq_refl))))).
Defined.

Lemma search_all_countries_any :
  normalizeInput "Any country" = "countries"
  /\ search Sample.data "Any country"
     = ([Sample.tokyo; Sample.kyoto; Sample.rio], "countries").
Proof.
  assert (H : normalizeInput "Any country" = "countries") by reflexivity.
  split; [exact H |].
  exact (search_all_countries Sample.data "Any country" H).
Defined.

Lemma search_unmatched_term_tokyo :
  isBlank "Tokyo" = false /\ search Sample.data "Tokyo" = ([], "countries").
Proof.
  assert (Hblank : isBlank "Tokyo" = false) by reflexivity.
  split; [exact Hblank |].
  apply (search_unmatched_term Sample.data "Tokyo" Hblank).
  - vm_compute. discriminate.
  - vm_compute. discriminate.
  - vm_compute. discriminate.
  - intros country [<- | [<- | []]]; apply includes_false_iff; reflexivity.
Defined.

Lemma annotation_needs_table_entry_tokyo :
  (forall key, Sample.clock (JsObj key) = None)
  /\ timeDisplay Sample.clock "countries" Sample.tokyo <> ""
  /\ exists tz formatted,
       ownProperty timezoneMap "Tokyo, Japan" = Some tz
       /\ Sample.clock (JsStr tz) = Some formatted
       /\ formatted <> ""
       /\ timeDisplay Sample.clock "countries" Sample.tokyo = timeHtml formatted.
Proof.
  assert (Hobj : forall key, Sample.clock (JsObj key) = None) by (intros key; reflexivity).
  assert (Hne : timeDisplay Sample.clock "countries" Sample.tokyo <> "")
    by (vm_compute; discriminate).
  split; [exact Hobj | split; [exact Hne |]].
  exact (proj2 (annotation_needs_table_entry Sample.clock "countries" Sample.tokyo
                  Hobj Hne)).
Defined.

Lemma bad_status_is_named_404 :
  Sample.offline 0
  = Response false 404 (JsonError "Unexpected token < in JSON at position 0")
  /\ Substring "404" (innerHTML (snd (fetchRecommendations Sample.offline Sample.blank))).
Proof.
  split; [reflexivity |].
  destruct (bad_status_is_named Sample.offline Sample.blank 404
              (JsonError "Unexpected token < in JSON at position 0") eq_refl)
    as (_ & _ & _ & H).
  exact H.
Defined.

Lemma search_retries_after_failed_load_flaky :
  LoadFails (flaky 0) (httpErrorMessage 404)
  /\ flaky 1 = Response true 200 (JsonData Sample.data)
  /\ requests (performSearch flaky Sample.clock (domContentLoaded flaky Sample.blank)) = 2
  /\ travelData (performSearch flaky Sample.clock (domContentLoaded flaky Sample.blank))
     = Some Sample.data.
Proof.
  assert (Hfail : LoadFails (flaky (requests Sample.blank)) (httpErrorMessage 404))
    by apply fails_status.
  assert (Hok : flaky (S (requests Sample.blank)) = Response true 200 (JsonData Sample.data))
    by reflexivity.
  split; [exact Hfail | split; [exact Hok |]].
  destruct (search_retries_after_failed_load flaky Sample.clock Sample.blank
              (httpErrorMessage 404) 200 Sample.data eq_refl Hfail Hok)
    as (_ & _ & Hd & Hn & _).
  split; [exact Hn | exact Hd].
Defined.

Lemma search_twice_is_search_once_japan :
  travelData (set_value "japan" Sample.loaded) = Some Sample.data
  /\ performSearch Sample.online (fun _ => None)
       (performSearch Sample.online Sample.clock (set_value "japan" Sample.loaded))
     = performSearch Sample.online (fun _ => None) (set_value "japan" Sample.loaded).
Proof.
  assert (H : travelData (set_value "japan" Sample.loaded) = Some Sample.data)
    by reflexivity.
  split; [exact H |].
  exact (search_twice_is_search_once Sample.online Sample.clock
           (set_value "japan" Sample.loaded) Sample.data (fun _ => None) H).
Defined.

Lemma notice_keeps_grid_style_tokyo :
  fst (search Sample.data "japan") <> []
  /\ fst (search Sample.data "Tokyo") = []
  /\ style (performSearch Sample.online Sample.clock
              (set_value "Tokyo"
                 (performSearch Sample.online Sample.clock
                    (set_value "japan" Sample.loaded))))
     = gridStyle.
Proof.
  assert (Hfound : fst (search Sample.data
                          (searchInput_value (set_value "japan" Sample.loaded))) <> [])
    by (vm_compute; discriminate).
  assert (Hnone : fst (search Sample.data "Tokyo") = []) by reflexivity.
  split; [exact Hfound | split; [exact Hnone |]].
  exact (proj2 (notice_keeps_grid_style Sample.online Sample.clock
                  (set_value "japan" Sample.loaded) Sample.data "Tokyo"
                  eq_refl Hfound Hnone)).
Defined.

Lemma search_after_reset_loaded :
  travelData Sample.loaded = Some Sample.data
  /\ innerHTML (performSearch Sample.online Sample.clock (resetClick Sample.loaded))
     = noResultsHtml.
Proof.
  assert (H : travelData Sample.loaded = Some Sample.data) by reflexivity.
  split; [exact H |].
  exact (proj1 (search_after_reset Sample.online Sample.clock Sample.loaded
                  Sample.data H)).
Defined.
